(** * RNNG parser data structures (pytext/models/semantic_parsers/rnng/rnng_data_structures.py)

    A shallow embedding of [Element], [StackLSTM], [CompositionalNN],
    [CompositionalSummationNN] and [ParserState].

    - Python list objects live in a store and are reached through
      references, so that [list(self.stack)] and [list.copy()] allocate
      and [append]/[pop] mutate in place.
    - Methods are computations in a state-and-exception monad: they take
      the store and give back a result ([Ok] or [Raise]) and the store.
    - torch is a parameter (class [Torch]): tensors are an abstract type,
      a tensor whose first dimension is a sequence is the list of its
      slices, and [nn.LSTM] is given by its one-step transition.
    - [neg_prob] is a Python float, that is a binary64 number. *)

From Stdlib Require Import ZArith String Bool Lia Permutation.
From Stdlib Require Import PrimFloat.
From stdpp Require Import base list.

Set Warnings "-inexact-float".

Local Open Scope Z_scope.

(** ** Exceptions and the monad *)

Inductive exn :=
| IndexError
| TypeError
| AttributeError
| RuntimeError
| ValueError
| SystemError.

Inductive result (A : Type) :=
| Ok (a : A)
| Raise (e : exn).
Arguments Ok {A} a.
Arguments Raise {A} e.

(** A computation over a state [S]: the state survives an exception. *)
Definition M (S A : Type) : Type := S -> result A * S.

Definition ret {S A} (a : A) : M S A := fun s => (Ok a, s).

Definition raise {S A} (e : exn) : M S A := fun s => (Raise e, s).

Definition bind {S A B} (m : M S A) (k : A -> M S B) : M S B :=
  fun s => match m s with
           | (Ok a, s') => k a s'
           | (Raise e, s') => (Raise e, s')
           end.

Definition lift {S A} (r : result A) : M S A := fun s => (r, s).

Declare Scope py_scope.
Delimit Scope py_scope with py.
Notation "x <- m ;; k" := (bind m (fun x => k))
  (at level 100, m at next level, right associativity) : py_scope.
Notation "m ;;; k" := (bind m (fun _ => k))
  (at level 100, right associativity) : py_scope.
Local Open Scope py_scope.

(** ** Python lists *)

(** [l[k]] with Python's negative indices. *)
Definition py_getitem {A} (l : list A) (k : Z) : result A :=
  let n := Z.of_nat (length l) in
  let i := if k <? 0 then k + n else k in
  if (0 <=? i) && (i <? n)
  then match l !! Z.to_nat i with
       | Some x => Ok x
       | None => Raise IndexError
       end
  else Raise IndexError.

(** [l.pop()]: the last item and the list without it. *)
Definition py_pop {A} (l : list A) : result (A * list A) :=
  match rev l with
  | [] => Raise IndexError
  | x :: r => Ok (x, rev r)
  end.

(** [l[:-1]] *)
Definition py_init {A} (l : list A) : list A := removelast l.

(** ** Parameters: torch and the payload of an Element *)

Class Torch := {
  Tensor : Type;
  (** [t[-1]] on a tensor *)
  index_last : Tensor -> Tensor;
  (** [torch.cat([a, b], dim=1)] *)
  cat_dim1 : Tensor -> Tensor -> Tensor;
  (** elementwise sum of two rows, the step of [torch.sum(_, dim=0)] *)
  tensor_add : Tensor -> Tensor -> Tensor;
  (** [nn.Tanh()] *)
  torch_tanh : Tensor -> Tensor
}.

(** The payload of an Element is typed [Any]. *)
Class PyAny := {
  Node : Type;
  (** a Python string as a payload *)
  str_node : string -> Node;
  (** [==] on payloads *)
  node_eq : Node -> Node -> bool;
  node_str : Node -> string
}.

(** [(h, c)], the state of an LSTM *)
Definition State `{Torch} : Type := (Tensor * Tensor)%type.

(** [nn.LSTM]: the learned transition over one time step. *)
Record LSTM `{Torch} := { lstm_step : Tensor -> State -> State }.

(** [state[0][-1]]: the hidden vector of the last layer. *)
Definition lstm_output `{Torch} (state : State) : Tensor :=
  index_last (fst state).

(** [lstm(input, state)] is [(output, (h_n, c_n))]: [output] holds the last
    layer's hidden vector after each time step, the second component is
    the state after the last one. *)
Fixpoint LSTM_call `{Torch} (m : LSTM) (input : list Tensor) (state : State)
  : list Tensor * State :=
  match input with
  | [] => ([], state)
  | x :: rest =>
      let s1 := lstm_step m x state in
      let '(out, sn) := LSTM_call m rest s1 in
      (lstm_output s1 :: out, sn)
  end.

(** ** Element *)

Module Element.
Section Element.
Context `{PyAny}.

Record t := Element { node : Node }.

Definition __eq__ (self other : t) : bool := node_eq (node self) (node other).

Definition __repr__ (self : t) : string := node_str (node self).
End Element.
End Element.

(** ** The store of list objects *)

Abbreviation loc := nat (only parsing).

Section Store.
Context `{Torch} `{PyAny}.

(** (state, (embedding, element)) *)
#[local] Abbreviation Frame := (State * (Tensor * Element.t))%type.

Inductive pyval :=
| PyInt (z : Z)
| PyFloat (f : float)
| PyBool (b : bool)
| PyTensor (t : Tensor).

(** A list object: the frames of a StackLSTM, or a list of values. *)
Inductive cell :=
| Frames (l : list Frame)
| Items (l : list pyval).

(** The store: the list objects made so far, a reference is an index. *)
#[local] Abbreviation heap := (list cell).

Definition alloc (c : cell) : M heap loc :=
  fun h => (Ok (length h), h ++ [c]).

(** A reference that holds no list of the expected kind is reached by no
    execution; it is answered with [SystemError]. *)
Definition load_frames (l : loc) : M heap (list Frame) :=
  fun h => match h !! l with
           | Some (Frames fs) => (Ok fs, h)
           | _ => (Raise SystemError, h)
           end.

Definition load_items (l : loc) : M heap (list pyval) :=
  fun h => match h !! l with
           | Some (Items vs) => (Ok vs, h)
           | _ => (Raise SystemError, h)
           end.

Definition store (l : loc) (c : cell) : M heap unit :=
  fun h => (Ok tt, <[l := c]> h).

(** [l.append(v)] on a list of values *)
Definition list_append (l : loc) (v : pyval) : M heap unit :=
  vs <- load_items l ;; store l (Items (vs ++ [v])).

(** [l.copy()] on a list of values *)
Definition list_copy (l : loc) : M heap loc :=
  vs <- load_items l ;; alloc (Items vs).

(** [len(l)] on a list of values *)
Definition list_len (l : loc) : M heap Z :=
  vs <- load_items l ;; ret (Z.of_nat (length vs)).
End Store.

Abbreviation Frame := (State * (Tensor * Element.t))%type.
Abbreviation heap := (list cell).

(** ** StackLSTM *)

Module StackLSTM.
Section StackLSTM.
Context `{Torch} `{PyAny}.

Record t := {
  empty : Tensor;
  lstm : LSTM;
  (** reference to the list of frames, or None *)
  stack : option loc
}.

Definition _lstm_output (state : State) : Tensor := lstm_output state.

Definition __init__ (lstm : LSTM) (initial_state : option State)
    (empty_embedding : Tensor) : M heap t :=
  match initial_state with
  | Some st =>
      l <- alloc (Frames [(st, (_lstm_output st, Element.Element (str_node "Root")))]) ;;
      ret {| empty := empty_embedding; lstm := lstm; stack := Some l |}
  | None =>
      ret {| empty := empty_embedding; lstm := lstm; stack := None |}
  end.

Definition push (self : t) (expression : Tensor) (element : Element.t)
  : M heap unit :=
  match stack self with
  | None => raise TypeError
  | Some l =>
      fs <- load_frames l ;;
      top <- lift (py_getitem fs (-1)) ;;
      let old_top_state := fst top in
      (* expression.unsqueeze(0): a sequence of length 1 *)
      let '(_, new_top_state) := LSTM_call (lstm self) [expression] old_top_state in
      store l (Frames (fs ++ [(new_top_state, (_lstm_output new_top_state, element))]))
  end.

Definition pop (self : t) : M heap (Tensor * Element.t) :=
  match stack self with
  | None => raise AttributeError
  | Some l =>
      fs <- load_frames l ;;
      p <- lift (py_pop fs) ;;
      store l (Frames (snd p)) ;;;
      ret (snd (fst p))
  end.

Definition embedding (self : t) : M heap Tensor :=
  match stack self with
  | None => raise TypeError
  | Some l =>
      fs <- load_frames l ;;
      if Z.of_nat (length fs) <? 1 then ret (empty self)
      else
        top <- lift (py_getitem fs (-1)) ;;
        let top_state := fst top in
        ret (_lstm_output top_state)
  end.

Definition element_from_top (self : t) (index : Z) : M heap Element.t :=
  match stack self with
  | None => raise TypeError
  | Some l =>
      fs <- load_frames l ;;
      f <- lift (py_getitem fs (- (index + 1))) ;;
      ret (snd (snd f))
  end.

Definition __len__ (self : t) : M heap Z :=
  match stack self with
  | None => raise TypeError
  | Some l =>
      fs <- load_frames l ;;
      ret (Z.of_nat (length fs) - 1)
  end.

(** [len(self)], the builtin: it calls [__len__] and refuses a negative
    answer with ValueError. *)
Definition len (self : t) : M heap Z :=
  n <- __len__ self ;;
  if n <? 0 then raise ValueError else ret n.

(** [str(x)] of an Element is its [__repr__]. *)
Definition __str__ (self : t) : M heap string :=
  match stack self with
  | None => raise TypeError
  | Some l =>
      fs <- load_frames l ;;
      ret (String.concat "->" (map (fun x => Element.__repr__ (snd (snd x))) fs))
  end.

Definition copy (self : t) : M heap t :=
  other <- __init__ (lstm self) None (empty self) ;;
  match stack self with
  | None => raise TypeError
  | Some l =>
      fs <- load_frames l ;;
      l' <- alloc (Frames fs) ;;
      ret {| empty := empty other; lstm := lstm other; stack := Some l' |}
  end.

(** *** Observing a stack in a store *)

(** The frames of a stack, bottom first, when its reference holds some. *)
Definition frames_of (h : heap) (self : t) : option (list Frame) :=
  match stack self with
  | Some l => match h !! l with
              | Some (Frames fs) => Some fs
              | _ => None
              end
  | None => None
  end.

(** Every frame the class builds stores the summary of its own state. *)
Definition frame_ok (f : Frame) : Prop := fst (snd f) = _lstm_output (fst f).

(** *** Sequences of calls *)

Inductive op :=
| Push (expression : Tensor) (element : Element.t)
| Pop.

(** Runs the calls in order and collects what the pops return. *)
Fixpoint run (self : t) (ops : list op) : M heap (list (Tensor * Element.t)) :=
  match ops with
  | [] => ret []
  | Push expression element :: rest =>
      push self expression element ;;; run self rest
  | Pop :: rest =>
      p <- pop self ;;
      ps <- run self rest ;;
      ret (p :: ps)
  end.

(** Every pop of the sequence is called when [len(self)] is at least 1. *)
Fixpoint pops_guarded (self : t) (ops : list op) (h : heap) : bool :=
  match ops with
  | [] => true
  | Push expression element :: rest =>
      pops_guarded self rest (snd (push self expression element h))
  | Pop :: rest =>
      match fst (__len__ self h) with
      | Ok d => (1 <=? d) && pops_guarded self rest (snd (pop self h))
      | Raise _ => false
      end
  end.

(** The number of pushes, and of pops, in a sequence of calls. *)
Fixpoint pushes (ops : list op) : Z :=
  match ops with
  | [] => 0
  | Push _ _ :: rest => pushes rest + 1
  | Pop :: rest => pushes rest
  end.

Fixpoint pops (ops : list op) : Z :=
  match ops with
  | [] => 0
  | Push _ _ :: rest => pops rest
  | Pop :: rest => pops rest + 1
  end.

(** The frame a push appends above a frame whose state is [top]. *)
Definition new_frame (m : LSTM) (expression : Tensor) (element : Element.t)
    (top : State) : Frame :=
  let s := lstm_step m expression top in (s, (_lstm_output s, element)).

(** The frame the constructor starts from. *)
Definition root_frame (initial_state : State) : Frame :=
  (initial_state, (_lstm_output initial_state, Element.Element (str_node "Root"))).

(** The stack as the specification words it: the pushed frames that are
    not yet popped, most recent first, above a root state that is not
    one of them.  A push derives its frame from the state on top, a pop
    gives back the pair of the most recent frame. *)
Fixpoint lifo (m : LSTM) (root : State) (pushed : list Frame) (ops : list op)
  : list (Tensor * Element.t) :=
  match ops with
  | [] => []
  | Push expression element :: rest =>
      let top := match pushed with f :: _ => fst f | [] => root end in
      lifo m root (new_frame m expression element top :: pushed) rest
  | Pop :: rest =>
      match pushed with
      | f :: below => snd f :: lifo m root below rest
      | [] => []
      end
  end.
End StackLSTM.
End StackLSTM.

(** ** Composition functions *)

(** [xaviervar] is imported from pytext.utils.cuda_utils and is not part of
    this file: it is a parameter.  Each call asks for a new tensor of the
    given shape, so it is a computation over the state of the generator it
    draws from. *)
Class CudaUtils `{Torch} := {
  Rng : Type;
  xaviervar : list Z -> Rng -> Tensor * Rng
}.

(** [nn.Linear]: the learned affine map. *)
Record Linear `{Torch} := { linear_call : Tensor -> Tensor }.

(** [nn.Sequential(nn.Linear(..), nn.Tanh())] *)
Definition Sequential_Linear_Tanh `{Torch} (l : Linear) (x : Tensor) : Tensor :=
  torch_tanh (linear_call l x).

Module CompositionalNN.
Section CompositionalNN.
Context `{CudaUtils}.

Record t := {
  lstm_dim : Z;
  lstm_fwd : LSTM;
  lstm_rev : LSTM;
  linear_seq : Linear
}.

Definition draw (size : list Z) : M Rng Tensor :=
  fun g => let '(v, g') := xaviervar size g in (Ok v, g').

Definition forward (self : t) (x : list Tensor) : M Rng Tensor :=
  (* reset hidden state every time *)
  h_fwd <- draw [1; 1; lstm_dim self] ;;
  c_fwd <- draw [1; 1; lstm_dim self] ;;
  let lstm_hidden_fwd : State := (h_fwd, c_fwd) in
  h_rev <- draw [1; 1; lstm_dim self] ;;
  c_rev <- draw [1; 1; lstm_dim self] ;;
  let lstm_hidden_rev : State := (h_rev, c_rev) in
  nonterminal_element <- lift (py_getitem x (-1)) ;;
  let reversed_rest := py_init x in
  (* Always put nonterminal_element at the front *)
  let fwd_input := [nonterminal_element] ++ rev reversed_rest in
  let rev_input := [nonterminal_element] ++ reversed_rest in
  (* torch.stack(fwd_input) is the sequence of the rows; [0] of the result
     of the LSTM is its output, [0] of the output its first slice *)
  stacked_fwd <-
    lift (py_getitem (fst (LSTM_call (lstm_fwd self) fwd_input lstm_hidden_fwd)) 0) ;;
  stacked_rev <-
    lift (py_getitem (fst (LSTM_call (lstm_rev self) rev_input lstm_hidden_rev)) 0) ;;
  let combined := cat_dim1 stacked_fwd stacked_rev in
  let subtree_embedding := Sequential_Linear_Tanh (linear_seq self) combined in
  ret subtree_embedding.

(** The four tensors a call of [forward] starts from. *)
Definition initial_states (self : t) : M Rng (State * State) :=
  h_fwd <- draw [1; 1; lstm_dim self] ;;
  c_fwd <- draw [1; 1; lstm_dim self] ;;
  h_rev <- draw [1; 1; lstm_dim self] ;;
  c_rev <- draw [1; 1; lstm_dim self] ;;
  ret ((h_fwd, c_fwd), (h_rev, c_rev)).

(** The composition as the docstring and the specification word it: the
    FINAL hidden vectors of the two passes are concatenated and projected.
    [h_n[-1]] of a pass is [lstm_output] of its last state. *)
Definition forward_final_hidden (self : t) (x : list Tensor) : M Rng Tensor :=
  h_fwd <- draw [1; 1; lstm_dim self] ;;
  c_fwd <- draw [1; 1; lstm_dim self] ;;
  h_rev <- draw [1; 1; lstm_dim self] ;;
  c_rev <- draw [1; 1; lstm_dim self] ;;
  nonterminal_element <- lift (py_getitem x (-1)) ;;
  let children_reversed := py_init x in
  let final_fwd :=
    lstm_output (snd (LSTM_call (lstm_fwd self)
                        (nonterminal_element :: rev children_reversed) (h_fwd, c_fwd))) in
  let final_rev :=
    lstm_output (snd (LSTM_call (lstm_rev self)
                        (nonterminal_element :: children_reversed) (h_rev, c_rev))) in
  ret (Sequential_Linear_Tanh (linear_seq self) (cat_dim1 final_fwd final_rev)).
End CompositionalNN.
End CompositionalNN.

Module CompositionalSummationNN.
Section CompositionalSummationNN.
Context `{Torch}.

Record t := {
  lstm_dim : Z;
  linear_seq : Linear
}.

(** [torch.cat(x, dim=0)] of rows: the rows themselves; an empty list of
    tensors is refused. *)
Definition torch_cat_dim0 (x : list Tensor) : result (list Tensor) :=
  match x with
  | [] => Raise RuntimeError
  | _ => Ok x
  end.

(** [torch.sum(rows, dim=0, keepdim=True)] of at least one row *)
Definition torch_sum_dim0 (rows : list Tensor) : result Tensor :=
  match rows with
  | [] => Raise RuntimeError
  | r :: rs => Ok (fold_left tensor_add rs r)
  end.

Definition forward (self : t) (x : list Tensor) : result Tensor :=
  match torch_cat_dim0 x with
  | Raise e => Raise e
  | Ok rows =>
      match torch_sum_dim0 rows with
      | Raise e => Raise e
      | Ok combined =>
          let subtree_embedding := Sequential_Linear_Tanh (linear_seq self) combined in
          Ok subtree_embedding
      end
  end.
End CompositionalSummationNN.
End CompositionalSummationNN.

(** ** ParserState *)

Module ParserState.
Section ParserState.
Context `{Torch} `{PyAny}.

(** What the constructor reads from the parser. *)
Record Parser := {
  buff_rnn : LSTM;
  stack_rnn : LSTM;
  action_rnn : LSTM;
  init_lstm : M heap State;
  pempty_buffer_emb : Tensor;
  empty_stack_emb : Tensor;
  empty_action_emb : Tensor
}.

Record t := {
  buffer_stackrnn : StackLSTM.t;
  stack_stackrnn : StackLSTM.t;
  action_stackrnn : StackLSTM.t;
  predicted_actions_idx : loc;
  action_scores : loc;
  num_open_NT : Z;
  is_open_NT : loc;
  found_unsupported : bool;
  neg_prob : float
}.

(** [ParserState(parser)] with a parser; without one the object gets no
    attribute at all, which only [copy] uses, and [copy] sets every one. *)
Definition __init__ (parser : Parser) : M heap t :=
  s0 <- init_lstm parser ;;
  buffer <- StackLSTM.__init__ (buff_rnn parser) (Some s0) (pempty_buffer_emb parser) ;;
  s1 <- init_lstm parser ;;
  stk <- StackLSTM.__init__ (stack_rnn parser) (Some s1) (empty_stack_emb parser) ;;
  s2 <- init_lstm parser ;;
  action <- StackLSTM.__init__ (action_rnn parser) (Some s2) (empty_action_emb parser) ;;
  idx <- alloc (Items []) ;;
  scores <- alloc (Items []) ;;
  open <- alloc (Items []) ;;
  ret {| buffer_stackrnn := buffer; stack_stackrnn := stk; action_stackrnn := action;
         predicted_actions_idx := idx; action_scores := scores;
         num_open_NT := 0; is_open_NT := open;
         found_unsupported := false; neg_prob := 0%float |}.

Definition finished (self : t) : M heap bool :=
  n <- StackLSTM.len (stack_stackrnn self) ;;
  if n =? 1
  then m <- StackLSTM.len (buffer_stackrnn self) ;; ret (m =? 0)
  else ret false.

Definition copy (self : t) : M heap t :=
  buffer <- StackLSTM.copy (buffer_stackrnn self) ;;
  stk <- StackLSTM.copy (stack_stackrnn self) ;;
  action <- StackLSTM.copy (action_stackrnn self) ;;
  idx <- list_copy (predicted_actions_idx self) ;;
  scores <- list_copy (action_scores self) ;;
  let n := num_open_NT self in
  open <- list_copy (is_open_NT self) ;;
  ret {| buffer_stackrnn := buffer; stack_stackrnn := stk; action_stackrnn := action;
         predicted_actions_idx := idx; action_scores := scores;
         num_open_NT := n; is_open_NT := open;
         found_unsupported := found_unsupported self; neg_prob := neg_prob self |}.

Definition __gt__ (self other : t) : bool :=
  PrimFloat.ltb (neg_prob other) (neg_prob self).

Definition __eq__ (self other : t) : bool :=
  PrimFloat.eqb (neg_prob self) (neg_prob other).

(** [a < b]: the class defines no [__lt__], so Python evaluates the
    reflected [b.__gt__(a)]. *)
Definition lt (a b : t) : bool := __gt__ b a.

(** [sorted(states)]: a stable sort that compares with [<] only. *)
Fixpoint insert_sorted (a : t) (l : list t) : list t :=
  match l with
  | [] => [a]
  | b :: r => if lt a b then a :: b :: r else b :: insert_sorted a r
  end.

Definition sorted (l : list t) : list t :=
  fold_left (fun acc a => insert_sorted a acc) l [].

(** The values of a list object, when the reference holds some. *)
Definition items_of (h : heap) (l : loc) : option (list pyval) :=
  match h !! l with
  | Some (Items vs) => Some vs
  | _ => None
  end.

(** [for v in vs: l.append(v)] *)
Fixpoint appends (l : loc) (vs : list pyval) : M heap unit :=
  match vs with
  | [] => ret tt
  | v :: rest => list_append l v ;;; appends l rest
  end.

(** Every attribute of the candidate refers to a list of its kind. *)
Definition well_formed (h : heap) (self : t) : Prop :=
  is_Some (StackLSTM.frames_of h (buffer_stackrnn self)) /\
  is_Some (StackLSTM.frames_of h (stack_stackrnn self)) /\
  is_Some (StackLSTM.frames_of h (action_stackrnn self)) /\
  is_Some (items_of h (predicted_actions_idx self)) /\
  is_Some (items_of h (action_scores self)) /\
  is_Some (items_of h (is_open_NT self)).
End ParserState.
End ParserState.

(** ** Sequences of calls: what stays on a stack *)

Section Live.
Context `{Torch} `{PyAny}.
Import StackLSTM.

(** One push for each item, in order. *)
Definition push_all (items : list (Tensor * Element.t)) : list op :=
  map (fun i => Push (fst i) (snd i)) items.

(** The items pushed and not yet popped after a sequence of calls, most
    recent first, starting from the items [above]. *)
Fixpoint live (ops : list op) (above : list (Tensor * Element.t))
  : list (Tensor * Element.t) :=
  match ops with
  | [] => above
  | Push expression element :: rest => live rest ((expression, element) :: above)
  | Pop :: rest => live rest (tail above)
  end.

(** The frames that pushing [items], bottom first, builds above a frame
    whose state is [s]. *)
Fixpoint frames_for (m : LSTM) (s : State) (items : list (Tensor * Element.t))
  : list Frame :=
  match items with
  | [] => []
  | i :: rest =>
      let f := new_frame m (fst i) (snd i) s in
      f :: frames_for m (fst f) rest
  end.
End Live.

(** ** What the decoding loop may do to a candidate *)

Section Mutations.
Context `{Torch} `{PyAny}.

Inductive mutation :=
| OnBuffer (o : StackLSTM.op)
| OnStack (o : StackLSTM.op)
| OnAction (o : StackLSTM.op)
| AppendPredicted (v : pyval)
| AppendScore (v : pyval)
| AppendOpenNT (v : pyval).

Definition mutate1 (ps : ParserState.t) (m : mutation) : M heap unit :=
  match m with
  | OnBuffer o => StackLSTM.run (ParserState.buffer_stackrnn ps) [o] ;;; ret tt
  | OnStack o => StackLSTM.run (ParserState.stack_stackrnn ps) [o] ;;; ret tt
  | OnAction o => StackLSTM.run (ParserState.action_stackrnn ps) [o] ;;; ret tt
  | AppendPredicted v => list_append (ParserState.predicted_actions_idx ps) v
  | AppendScore v => list_append (ParserState.action_scores ps) v
  | AppendOpenNT v => list_append (ParserState.is_open_NT ps) v
  end.

(** The calls in order, up to the first that raises. *)
Fixpoint mutate (ps : ParserState.t) (ms : list mutation) : M heap unit :=
  match ms with
  | [] => ret tt
  | m :: rest => mutate1 ps m ;;; mutate ps rest
  end.

(** The list objects a candidate refers to. *)
Definition owns (ps : ParserState.t) (l : loc) : Prop :=
  StackLSTM.stack (ParserState.buffer_stackrnn ps) = Some l \/
  StackLSTM.stack (ParserState.stack_stackrnn ps) = Some l \/
  StackLSTM.stack (ParserState.action_stackrnn ps) = Some l \/
  ParserState.predicted_actions_idx ps = l \/
  ParserState.action_scores ps = l \/
  ParserState.is_open_NT ps = l.
End Mutations.

(** ** Concrete parameters

    Rows of integers stand for tensors: the models below are the inputs at
    which the general statements are evaluated. *)

Module Sample.
(** A bounded, monotone stand-in for tanh on integers. *)
Definition clamp (z : Z) : Z := Z.max (-100) (Z.min 100 z).

Fixpoint add_rows (a b : list Z) : list Z :=
  match a, b with
  | x :: a', y :: b' => (x + y) :: add_rows a' b'
  | _, _ => []
  end.

#[export] Instance torch : Torch := {|
  Tensor := list Z;
  index_last := fun t => t;
  cat_dim1 := fun a b => a ++ b;
  tensor_add := add_rows;
  torch_tanh := map clamp
|}.

#[export] Instance any : PyAny := {|
  Node := string;
  str_node := fun s => s;
  node_eq := String.eqb;
  node_str := fun s => s
|}.

(** A generator that hands out its counter and advances it. *)
#[export] Instance cuda_utils : CudaUtils := {|
  Rng := Z;
  xaviervar := fun _ g => ([g], g + 1)
|}.

(** A recurrent step that accumulates its inputs in the hidden vector. *)
Definition rnn : LSTM := {| lstm_step := fun x s => (add_rows (fst s) x, snd s) |}.

Definition identity : Linear := {| linear_call := fun x => x |}.

Definition net : CompositionalNN.t :=
  {| CompositionalNN.lstm_dim := 1;
     CompositionalNN.lstm_fwd := rnn;
     CompositionalNN.lstm_rev := rnn;
     CompositionalNN.linear_seq := identity |}.

Definition sum_net : CompositionalSummationNN.t :=
  {| CompositionalSummationNN.lstm_dim := 1;
     CompositionalSummationNN.linear_seq := identity |}.

Definition initial_state : State := ([1], [0]).

(** [StackLSTM(rnn, ([1], [0]), [7])] in the empty store *)
Definition fresh : result StackLSTM.t * heap :=
  StackLSTM.__init__ rnn (Some initial_state) [7] [].

Definition fresh_stack : StackLSTM.t :=
  {| StackLSTM.empty := [7]; StackLSTM.lstm := rnn; StackLSTM.stack := Some 0%nat |}.

Definition fresh_heap : heap := snd fresh.

Definition parser : ParserState.Parser :=
  {| ParserState.buff_rnn := rnn; ParserState.stack_rnn := rnn;
     ParserState.action_rnn := rnn;
     ParserState.init_lstm := ret initial_state;
     ParserState.pempty_buffer_emb := [7];
     ParserState.empty_stack_emb := [8];
     ParserState.empty_action_emb := [9] |}.

(** [ParserState(parser)] in the empty store *)
Definition candidate : ParserState.t :=
  {| ParserState.buffer_stackrnn :=
       {| StackLSTM.empty := [7]; StackLSTM.lstm := rnn; StackLSTM.stack := Some 0%nat |};
     ParserState.stack_stackrnn :=
       {| StackLSTM.empty := [8]; StackLSTM.lstm := rnn; StackLSTM.stack := Some 1%nat |};
     ParserState.action_stackrnn :=
       {| StackLSTM.empty := [9]; StackLSTM.lstm := rnn; StackLSTM.stack := Some 2%nat |};
     ParserState.predicted_actions_idx := 3%nat;
     ParserState.action_scores := 4%nat;
     ParserState.num_open_NT := 0;
     ParserState.is_open_NT := 5%nat;
     ParserState.found_unsupported := false;
     ParserState.neg_prob := 0%float |}.

Definition candidate_heap : heap := snd (ParserState.__init__ parser []).

(** The same candidate with another score. *)
Definition scored (p : float) : ParserState.t :=
  {| ParserState.buffer_stackrnn := ParserState.buffer_stackrnn candidate;
     ParserState.stack_stackrnn := ParserState.stack_stackrnn candidate;
     ParserState.action_stackrnn := ParserState.action_stackrnn candidate;
     ParserState.predicted_actions_idx := ParserState.predicted_actions_idx candidate;
     ParserState.action_scores := ParserState.action_scores candidate;
     ParserState.num_open_NT := ParserState.num_open_NT candidate;
     ParserState.is_open_NT := ParserState.is_open_NT candidate;
     ParserState.found_unsupported := ParserState.found_unsupported candidate;
     ParserState.neg_prob := p |}.

(** A source of initial states that hands out the same tensor each time. *)
Definition constant_utils : CudaUtils := {|
  Rng := Z;
  xaviervar := fun _ g => ([0], g + 1)
|}.

(** The store after [n] tokens went on the stack of the candidate and [k]
    on its buffer. *)
Definition token : StackLSTM.op := StackLSTM.Push [1] (Element.Element "tok"%string).

Definition loaded (n k : nat) : heap :=
  snd (StackLSTM.run (ParserState.buffer_stackrnn candidate) (repeat token k)
         (snd (StackLSTM.run (ParserState.stack_stackrnn candidate) (repeat token n)
                 candidate_heap))).

(** The element with a string for its payload. *)
Definition element (s : string) : Element.t := @Element.Element any s.

(** Two items, and a sequence of calls that leaves two items on a stack. *)
Definition two_items : list (Tensor * Element.t) :=
  [([2], Element.Element "a"%string); ([3], Element.Element "b"%string)].

Definition some_calls : list StackLSTM.op :=
  [StackLSTM.Push [2] (Element.Element "a"%string);
   StackLSTM.Push [3] (Element.Element "b"%string);
   StackLSTM.Pop;
   StackLSTM.Push [4] (Element.Element "c"%string)].

(** The store after the root frame of the new stack was popped. *)
Definition spent_heap : heap := snd (StackLSTM.pop fresh_stack fresh_heap).

(** Calls through a candidate on each of its stacks and lists. *)
Definition some_mutations : list mutation :=
  [OnStack token; OnBuffer StackLSTM.Pop; OnAction token;
   AppendPredicted (PyInt 7); AppendScore (PyFloat 0.5); AppendOpenNT (PyBool true)].

(** A store with two tokens on the stack of the candidate, one on its
    buffer, and two predicted actions. *)
Definition busy_heap : heap :=
  snd (ParserState.appends (ParserState.predicted_actions_idx candidate)
         [PyInt 4; PyInt 2] (loaded 2 1)).
End Sample.

(** * Properties *)

(** ** Python lists *)

Lemma py_getitem_last {A} (l : list A) (x : A) : py_getitem (l ++ [x]) (-1) = Ok x.
Proof.
  unfold py_getitem. rewrite length_app, Nat2Z.inj_add. simpl length.
  replace (-1 <? 0) with true by reflexivity.
  replace (-1 + (Z.of_nat (length l) + Z.of_nat 1)) with (Z.of_nat (length l)) by lia.
  replace (0 <=? Z.of_nat (length l)) with true by (symmetry; apply Z.leb_le; lia).
  replace (Z.of_nat (length l) <? Z.of_nat (length l) + Z.of_nat 1) with true
    by (symmetry; apply Z.ltb_lt; lia).
  simpl. rewrite Nat2Z.id.
  rewrite lookup_app_r by lia. rewrite Nat.sub_diag. reflexivity.
Qed.

Lemma py_getitem_nil {A} (k : Z) : py_getitem (@nil A) k = Raise IndexError.
Proof.
  unfold py_getitem. simpl length.
  destruct (k <? 0) eqn:E.
  - apply Z.ltb_lt in E.
    replace (0 <=? k + Z.of_nat 0) with false by (symmetry; apply Z.leb_gt; lia).
    reflexivity.
  - apply Z.ltb_ge in E.
    replace (k <? Z.of_nat 0) with false by (symmetry; apply Z.ltb_ge; lia).
    rewrite andb_false_r. reflexivity.
Qed.

(** Offset [i] from the end, for [0 <= i < len(l)]. *)
Lemma py_getitem_from_end {A} (l : list A) (i : Z) :
  0 <= i < Z.of_nat (length l) ->
  py_getitem l (- (i + 1)) =
    match l !! (length l - 1 - Z.to_nat i)%nat with
    | Some x => Ok x
    | None => Raise IndexError
    end.
Proof.
  intros Hi. unfold py_getitem.
  replace (- (i + 1) <? 0) with true by (symmetry; apply Z.ltb_lt; lia).
  replace (0 <=? - (i + 1) + Z.of_nat (length l)) with true
    by (symmetry; apply Z.leb_le; lia).
  replace (- (i + 1) + Z.of_nat (length l) <? Z.of_nat (length l)) with true
    by (symmetry; apply Z.ltb_lt; lia).
  simpl.
  replace (Z.to_nat (- (i + 1) + Z.of_nat (length l)))
    with (length l - 1 - Z.to_nat i)%nat by lia.
  reflexivity.
Qed.

Lemma py_pop_snoc {A} (l : list A) (x : A) : py_pop (l ++ [x]) = Ok (x, l).
Proof. unfold py_pop. rewrite rev_app_distr. simpl. rewrite rev_involutive. reflexivity. Qed.

Lemma py_pop_nil {A} : py_pop (@nil A) = Raise IndexError.
Proof. reflexivity. Qed.

(** A non-empty list is its front followed by its last item. *)
Lemma snoc_of_nonempty {A} (l : list A) :
  l <> [] -> exists front x, l = front ++ [x].
Proof.
  intros Hne. destruct (exists_last Hne) as [front [x ->]]. eauto.
Qed.

(** ** StackLSTM: what each method does to a stack with frames [fs] *)

Section StackLSTM_methods.
Context `{Torch} `{PyAny}.
Import StackLSTM.

Implicit Types (self : StackLSTM.t) (h : heap) (fs : list Frame).

Lemma frames_of_Some self h fs :
  frames_of h self = Some fs <->
  exists l, stack self = Some l /\ h !! l = Some (Frames fs).
Proof.
  unfold frames_of. split.
  - destruct (stack self) as [l|]; [|discriminate].
    destruct (h !! l) as [[fs'|]|] eqn:E; try discriminate.
    intros [= ->]. eauto.
  - intros (l & -> & ->). reflexivity.
Qed.

Lemma init_spec m st e h :
  __init__ m (Some st) e h =
    (Ok {| empty := e; lstm := m; stack := Some (length h) |},
     h ++ [Frames [root_frame st]]).
Proof. reflexivity. Qed.

Lemma frames_of_init m st e h :
  frames_of (h ++ [Frames [root_frame st]])
    {| empty := e; lstm := m; stack := Some (length h) |} = Some [root_frame st].
Proof.
  unfold frames_of. cbn [stack]. rewrite lookup_app_r by lia.
  rewrite Nat.sub_diag. reflexivity.
Qed.

Lemma len_spec self h fs :
  frames_of h self = Some fs ->
  __len__ self h = (Ok (Z.of_nat (length fs) - 1), h).
Proof.
  intros (l & Hs & Hl)%frames_of_Some.
  unfold __len__, bind, load_frames, ret. rewrite Hs, Hl. reflexivity.
Qed.

(** The builtin [len] answers as [__len__] while a frame is left, and raises
    ValueError on the list without frames, where [__len__] gives -1. *)
Lemma builtin_len_spec self h fs :
  frames_of h self = Some fs ->
  len self h =
    (if Z.of_nat (length fs) - 1 <? 0 then Raise ValueError
     else Ok (Z.of_nat (length fs) - 1), h).
Proof.
  intros Hf. unfold len, bind. rewrite (len_spec _ _ _ Hf).
  destruct (Z.of_nat (length fs) - 1 <? 0); reflexivity.
Qed.

Lemma builtin_len_no_frame self h :
  frames_of h self = Some [] -> len self h = (Raise ValueError, h).
Proof. intros Hf. rewrite (builtin_len_spec _ _ _ Hf). reflexivity. Qed.

(** When the builtin answers, the store is as before and the answer is not
    negative. *)
Lemma builtin_len_ok self h h' d :
  len self h = (Ok d, h') -> h' = h /\ 0 <= d /\ __len__ self h = (Ok d, h).
Proof.
  unfold len, bind. destruct (__len__ self h) as [[n|e] h1] eqn:E; [|discriminate].
  assert (Hh : h1 = h).
  { revert E. unfold __len__, bind, load_frames, ret, raise.
    destruct (stack self) as [l|]; [|discriminate].
    destruct (h !! l) as [[fs|]|]; congruence. }
  subst h1. destruct (n <? 0) eqn:En; unfold raise, ret; [discriminate|].
  intros [= <- <-]. apply Z.ltb_ge in En. auto.
Qed.

Lemma push_spec self h front top expression element l :
  stack self = Some l ->
  h !! l = Some (Frames (front ++ [top])) ->
  push self expression element h =
    (Ok tt, <[l := Frames ((front ++ [top]) ++
               [new_frame (lstm self) expression element (fst top)])]> h).
Proof.
  intros Hs Hl.
  unfold push, bind, load_frames, lift, store. rewrite Hs, Hl.
  rewrite py_getitem_last. reflexivity.
Qed.

Lemma pop_spec self h front top l :
  stack self = Some l ->
  h !! l = Some (Frames (front ++ [top])) ->
  pop self h = (Ok (snd top), <[l := Frames front]> h).
Proof.
  intros Hs Hl.
  unfold pop, bind, load_frames, lift, store, ret. rewrite Hs, Hl.
  rewrite py_pop_snoc. reflexivity.
Qed.

Lemma pop_no_frame self h :
  frames_of h self = Some [] ->
  pop self h = (Raise IndexError, h).
Proof.
  intros (l & Hs & Hl)%frames_of_Some.
  unfold pop, bind, load_frames, lift. rewrite Hs, Hl. reflexivity.
Qed.

Lemma embedding_spec self h front top :
  frames_of h self = Some (front ++ [top]) ->
  embedding self h = (Ok (_lstm_output (fst top)), h).
Proof.
  intros (l & Hs & Hl)%frames_of_Some.
  unfold embedding, bind, load_frames, lift, ret. rewrite Hs, Hl.
  replace (Z.of_nat (length (front ++ [top])) <? 1) with false.
  - rewrite py_getitem_last. reflexivity.
  - symmetry. apply Z.ltb_ge. rewrite length_app. simpl. lia.
Qed.

Lemma embedding_no_frame self h :
  frames_of h self = Some [] ->
  embedding self h = (Ok (empty self), h).
Proof.
  intros (l & Hs & Hl)%frames_of_Some.
  unfold embedding, bind, load_frames, ret. rewrite Hs, Hl. reflexivity.
Qed.

Lemma element_from_top_spec self h fs i :
  frames_of h self = Some fs ->
  0 <= i < Z.of_nat (length fs) ->
  element_from_top self i h =
    (match fs !! (length fs - 1 - Z.to_nat i)%nat with
     | Some f => Ok (snd (snd f))
     | None => Raise IndexError
     end, h).
Proof.
  intros (l & Hs & Hl)%frames_of_Some Hi.
  unfold element_from_top, bind, load_frames, lift, ret. rewrite Hs, Hl.
  rewrite py_getitem_from_end by assumption.
  destruct (fs !! _); reflexivity.
Qed.

Lemma copy_spec self h fs :
  frames_of h self = Some fs ->
  copy self h =
    (Ok {| empty := empty self; lstm := lstm self; stack := Some (length h) |},
     h ++ [Frames fs]).
Proof.
  intros (l & Hs & Hl)%frames_of_Some.
  unfold copy, bind, __init__, ret, load_frames, alloc.
  rewrite Hs, Hl. reflexivity.
Qed.
End StackLSTM_methods.

(** ** StackLSTM: a method touches no list but the stack's own *)

Section StackLSTM_frame.
Context `{Torch} `{PyAny}.
Import StackLSTM.

Implicit Types (self : StackLSTM.t) (h : heap) (fs : list Frame).

Lemma push_other self expression element h l0 :
  stack self <> Some l0 ->
  snd (push self expression element h) !! l0 = h !! l0.
Proof.
  intros Hne. unfold push, bind, load_frames, lift, store, raise.
  destruct (stack self) as [l|]; [|reflexivity].
  destruct (h !! l) as [[fs|]|]; try reflexivity.
  destruct (py_getitem fs (-1)); [|reflexivity].
  cbn. apply list_lookup_insert_ne. congruence.
Qed.

Lemma pop_other self h l0 :
  stack self <> Some l0 ->
  snd (pop self h) !! l0 = h !! l0.
Proof.
  intros Hne. unfold pop, bind, load_frames, lift, store, raise, ret.
  destruct (stack self) as [l|]; [|reflexivity].
  destruct (h !! l) as [[fs|]|]; try reflexivity.
  destruct (py_pop fs); [|reflexivity].
  cbn. apply list_lookup_insert_ne. congruence.
Qed.

Lemma run_other self ops : forall h l0,
  stack self <> Some l0 ->
  snd (run self ops h) !! l0 = h !! l0.
Proof.
  induction ops as [|[expression element|] rest IH]; intros h l0 Hne.
  - reflexivity.
  - cbn [run]. unfold bind at 1.
    pose proof (push_other self expression element h l0 Hne) as Hp.
    destruct (push self expression element h) as [[[]|e] h1]; cbn [snd] in *.
    + rewrite IH by assumption. exact Hp.
    + exact Hp.
  - cbn [run]. unfold bind at 1.
    pose proof (pop_other self h l0 Hne) as Hp.
    destruct (pop self h) as [[p|e] h1]; cbn [snd] in *.
    + unfold bind, ret. specialize (IH h1 l0 Hne).
      destruct (run self rest h1) as [[ps|e] h2]; cbn [snd] in *; congruence.
    + exact Hp.
Qed.

(** A list of values is no list of frames, so it is out of reach too. *)
Lemma run_frames_of_other self self' ops h :
  stack self <> stack self' ->
  frames_of (snd (run self ops h)) self' = frames_of h self'.
Proof.
  intros Hne. unfold frames_of.
  destruct (stack self') as [l'|]; [|reflexivity].
  rewrite run_other by congruence. reflexivity.
Qed.
End StackLSTM_frame.

(** ** StackLSTM: sequences of pushes and guarded pops *)

Section StackLSTM_run.
Context `{Torch} `{PyAny}.
Import StackLSTM.

Implicit Types (self : StackLSTM.t) (h : heap) (fs : list Frame).

Lemma pushes_cons_push expression element ops :
  pushes (Push expression element :: ops) = pushes ops + 1.
Proof. reflexivity. Qed.

Lemma pops_cons_push expression element ops :
  pops (Push expression element :: ops) = pops ops.
Proof. reflexivity. Qed.

Lemma pushes_cons_pop ops : pushes (Pop :: ops) = pushes ops.
Proof. reflexivity. Qed.

Lemma pops_cons_pop ops : pops (Pop :: ops) = pops ops + 1.
Proof. reflexivity. Qed.

Lemma pops_guarded_prefix self pre post : forall h,
  pops_guarded self (pre ++ post) h = true -> pops_guarded self pre h = true.
Proof.
  induction pre as [|[expression element|] pre IH]; intros h Hg; cbn in *.
  - reflexivity.
  - apply IH. exact Hg.
  - destruct (fst (__len__ self h)); [|discriminate].
    apply andb_true_iff in Hg as [Hd Hg].
    rewrite Hd. cbn. apply IH. exact Hg.
Qed.

(** The frames above the root, most recent first, follow the reference
    stack step by step. *)
Lemma run_guarded self l root ops : forall h pushed,
  stack self = Some l ->
  h !! l = Some (Frames (root :: rev pushed)) ->
  pops_guarded self ops h = true ->
  exists pushed' h',
    run self ops h = (Ok (lifo (lstm self) (fst root) pushed ops), h') /\
    h' !! l = Some (Frames (root :: rev pushed')) /\
    Z.of_nat (length pushed') = Z.of_nat (length pushed) + pushes ops - pops ops.
Proof.
  induction ops as [|[expression element|] rest IH]; intros h pushed Hs Hl Hg.
  - exists pushed, h. cbn. repeat split; [assumption|lia].
  - set (top := match pushed with f :: _ => f | [] => root end).
    assert (Hsnoc : exists front, root :: rev pushed = front ++ [top]).
    { destruct pushed as [|f below]; cbn.
      - exists []. reflexivity.
      - exists (root :: rev below). reflexivity. }
    destruct Hsnoc as [front Hfront].
    assert (Hpush : push self expression element h =
              (Ok tt, <[l := Frames (root :: rev
                 (new_frame (lstm self) expression element (fst top) :: pushed))]> h)).
    { rewrite Hfront in Hl. rewrite (push_spec self h front top _ _ l Hs Hl).
      rewrite <- Hfront. reflexivity. }
    cbn [pops_guarded] in Hg. rewrite Hpush in Hg. cbn [snd] in Hg.
    assert (Hlen : (l < length h)%nat) by (apply lookup_lt_is_Some; eauto).
    destruct (IH _ (new_frame (lstm self) expression element (fst top) :: pushed) Hs
                (list_lookup_insert_eq _ _ _ Hlen) Hg)
      as (pushed' & h' & Hrun & Hl' & Hcount).
    exists pushed', h'. split; [|split].
    + cbn [run lifo]. unfold bind at 1. rewrite Hpush.
      rewrite Hrun. f_equal. f_equal. f_equal. f_equal.
      subst top. destruct pushed; reflexivity.
    + exact Hl'.
    + rewrite pushes_cons_push, pops_cons_push. cbn [length] in Hcount. lia.
  - cbn [pops_guarded] in Hg.
    assert (Hf : frames_of h self = Some (root :: rev pushed))
      by (apply frames_of_Some; eauto).
    rewrite (len_spec _ _ _ Hf) in Hg. cbn [fst] in Hg.
    apply andb_true_iff in Hg as [Hd Hg]. apply Z.leb_le in Hd.
    cbn [length] in Hd. rewrite length_rev in Hd.
    destruct pushed as [|f below]; [cbn in Hd; lia|].
    cbn [rev] in Hl.
    assert (Hpop : pop self h = (Ok (snd f), <[l := Frames (root :: rev below)]> h)).
    { apply (pop_spec self h (root :: rev below) f l Hs). exact Hl. }
    rewrite Hpop in Hg. cbn [snd] in Hg.
    assert (Hlen : (l < length h)%nat) by (apply lookup_lt_is_Some; eauto).
    destruct (IH _ below Hs (list_lookup_insert_eq _ _ _ Hlen) Hg)
      as (pushed' & h' & Hrun & Hl' & Hcount).
    exists pushed', h'. split; [|split].
    + cbn [run lifo]. unfold bind at 1. rewrite Hpop.
      unfold bind, ret. rewrite Hrun. reflexivity.
    + exact Hl'.
    + rewrite pushes_cons_pop, pops_cons_pop. cbn [length]. lia.
Qed.
End StackLSTM_run.

(** ** StackLSTM: depth, pop and embedding *)

Section StackLSTM_claims.
Context `{Torch} `{PyAny}.
Import StackLSTM.

Implicit Types (self : StackLSTM.t) (h : heap) (fs : list Frame).

(** With at least one frame, [embedding] gives the summary of the top frame
    and leaves the store as it is. *)
Lemma embedding_top_summary self h front top :
  frames_of h self = Some (front ++ [top]) ->
  frame_ok top ->
  embedding self h = (Ok (fst (snd top)), h).
Proof.
  intros Hf Hok. rewrite (embedding_spec _ _ _ _ Hf). rewrite Hok. reflexivity.
Qed.

(** [embedding] only reads: whatever it answers, the store is as before. *)
Lemma embedding_leaves_store self h : snd (embedding self h) = h.
Proof.
  unfold embedding, bind, load_frames, lift, ret, raise.
  destruct (stack self) as [l|]; [|reflexivity].
  destruct (h !! l) as [[fs|]|]; try reflexivity.
  destruct (Z.of_nat (length fs) <? 1); [reflexivity|].
  destruct (py_getitem fs (-1)); reflexivity.
Qed.

(** On a stack that was just built, whose depth is 0, [embedding] gives the
    summary of the root frame, whatever [empty_embedding] is. *)
Lemma embedding_after_init m st e h0 self h :
  __init__ m (Some st) e h0 = (Ok self, h) ->
  __len__ self h = (Ok 0, h) /\
  embedding self h = (Ok (_lstm_output st), h).
Proof.
  rewrite init_spec. intros [= <- <-].
  pose proof (frames_of_init m st e h0) as Hf. split.
  - rewrite (len_spec _ _ _ Hf). reflexivity.
  - apply (embedding_spec _ _ [] (root_frame st)). exact Hf.
Qed.

(** C3: on a stack built by the constructor, after every prefix of a
    sequence of pushes and pops whose pops are each called at depth at
    least 1, the calls have all returned, [len] is the number of pushes
    minus the number of pops, the root frame is still the bottom frame
    and is not among the frames that [len] counts, and the pops have
    returned the pairs that the reference stack gives: each time the
    (summary, element) of the most recent frame pushed and not yet
    popped. *)
Theorem push_pop_depth_and_order m st e h0 self h (ops pre post : list op) :
  __init__ m (Some st) e h0 = (Ok self, h) ->
  pops_guarded self ops h = true ->
  ops = pre ++ post ->
  exists outs above h',
    run self pre h = (Ok outs, h') /\
    __len__ self h' = (Ok (pushes pre - pops pre), h') /\
    frames_of h' self = Some (root_frame st :: above) /\
    Z.of_nat (length above) = pushes pre - pops pre /\
    outs = lifo m st [] pre.
Proof.
  rewrite init_spec. intros [= <- <-] Hg ->.
  apply pops_guarded_prefix in Hg.
  set (self := {| empty := e; lstm := m; stack := Some (length h0) |}) in *.
  assert (Hl : (h0 ++ [Frames [root_frame st]]) !! length h0
               = Some (Frames (root_frame st :: rev []))).
  { rewrite lookup_app_r by lia. rewrite Nat.sub_diag. reflexivity. }
  destruct (run_guarded self (length h0) (root_frame st) pre _ [] eq_refl Hl Hg)
    as (pushed' & h' & Hrun & Hl' & Hcount).
  assert (Hf : frames_of h' self = Some (root_frame st :: rev pushed'))
    by (apply frames_of_Some; eauto).
  exists (lifo m st [] pre), (rev pushed'), h'.
  cbn [length] in Hcount. repeat split.
  - exact Hrun.
  - rewrite (len_spec _ _ _ Hf). cbn [length]. rewrite length_rev.
    f_equal. f_equal. lia.
  - exact Hf.
  - rewrite length_rev. lia.
Qed.

(** C4, as the code has it: on a stack whose only frame is the root (depth
    0), [pop] raises nothing: it returns the root's (summary, element) and
    takes the root frame off.  On the list without frames that is left,
    [__len__] gives -1, so that [len] raises ValueError, and the next [pop]
    raises IndexError and changes nothing. *)
Theorem pop_at_depth_0_takes_root self h root :
  frames_of h self = Some [root] ->
  exists h',
    __len__ self h = (Ok 0, h) /\
    len self h = (Ok 0, h) /\
    pop self h = (Ok (snd root), h') /\
    frames_of h' self = Some [] /\
    __len__ self h' = (Ok (-1), h') /\
    len self h' = (Raise ValueError, h') /\
    pop self h' = (Raise IndexError, h').
Proof.
  intros Hf. pose proof Hf as (l & Hs & Hl)%frames_of_Some.
  assert (Hlen : (l < length h)%nat) by (apply lookup_lt_is_Some; eauto).
  assert (Hf' : frames_of (<[l := Frames []]> h) self = Some []).
  { apply frames_of_Some. exists l. split; [assumption|].
    apply list_lookup_insert_eq. assumption. }
  exists (<[l := Frames []]> h). repeat split.
  - rewrite (len_spec _ _ _ Hf). reflexivity.
  - rewrite (builtin_len_spec _ _ _ Hf). reflexivity.
  - apply (pop_spec self h [] root l Hs Hl).
  - exact Hf'.
  - rewrite (len_spec _ _ _ Hf'). reflexivity.
  - apply builtin_len_no_frame. exact Hf'.
  - apply pop_no_frame. exact Hf'.
Qed.
End StackLSTM_claims.

(** ** Copies *)

Section Copies.
Context `{Torch} `{PyAny}.
Import StackLSTM.

Implicit Types (self : StackLSTM.t) (h : heap) (fs : list Frame).

Lemma frames_of_app self h ext fs :
  frames_of h self = Some fs -> frames_of (h ++ ext) self = Some fs.
Proof.
  intros (l & Hs & Hl)%frames_of_Some. apply frames_of_Some.
  exists l. split; [assumption|]. apply lookup_app_l_Some. assumption.
Qed.

Lemma items_of_app h ext l vs :
  ParserState.items_of h l = Some vs -> ParserState.items_of (h ++ ext) l = Some vs.
Proof.
  unfold ParserState.items_of. intros Hi.
  destruct (h !! l) as [[|vs']|] eqn:E; try discriminate.
  rewrite (lookup_app_l_Some _ _ _ _ E). exact Hi.
Qed.

Lemma items_of_lt h l vs : ParserState.items_of h l = Some vs -> (l < length h)%nat.
Proof.
  unfold ParserState.items_of. intros Hi. apply lookup_lt_is_Some.
  destruct (h !! l); [eauto|discriminate].
Qed.

Lemma frames_of_lt self h fs l :
  frames_of h self = Some fs -> stack self = Some l -> (l < length h)%nat.
Proof.
  intros (l' & Hs & Hl)%frames_of_Some Hs'. apply lookup_lt_is_Some.
  replace l with l' by congruence. eauto.
Qed.

(** What [len] and [element_from_top] answer is read off the frames. *)
Lemma len_by_frames self self' h h' fs :
  frames_of h self = Some fs -> frames_of h' self' = Some fs ->
  fst (__len__ self h) = fst (__len__ self' h').
Proof.
  intros Hf Hf'. rewrite (len_spec _ _ _ Hf), (len_spec _ _ _ Hf'). reflexivity.
Qed.

Lemma element_from_top_frames self h fs i :
  frames_of h self = Some fs ->
  element_from_top self i h =
    (match py_getitem fs (- (i + 1)) with
     | Ok f => Ok (snd (snd f))
     | Raise e => Raise e
     end, h).
Proof.
  intros (l & Hs & Hl)%frames_of_Some.
  unfold element_from_top, bind, load_frames, lift, ret. rewrite Hs, Hl.
  destruct (py_getitem fs _); reflexivity.
Qed.

Lemma element_from_top_by_frames self self' h h' fs i :
  frames_of h self = Some fs -> frames_of h' self' = Some fs ->
  fst (element_from_top self i h) = fst (element_from_top self' i h').
Proof.
  intros Hf Hf'.
  rewrite (element_from_top_frames _ _ _ _ Hf), (element_from_top_frames _ _ _ _ Hf').
  reflexivity.
Qed.

Lemma list_copy_spec h l vs :
  ParserState.items_of h l = Some vs ->
  list_copy l h = (Ok (length h), h ++ [Items vs]).
Proof.
  unfold ParserState.items_of, list_copy, bind, load_items, alloc.
  destruct (h !! l) as [[|vs']|]; try discriminate.
  intros [= ->]. reflexivity.
Qed.

Lemma appends_spec l vs : forall h vs0,
  ParserState.items_of h l = Some vs0 ->
  ParserState.appends l vs h = (Ok tt, <[l := Items (vs0 ++ vs)]> h).
Proof.
  induction vs as [|v rest IH]; intros h vs0 Hi.
  - cbn. unfold ret. rewrite app_nil_r. f_equal. symmetry.
    apply list_insert_id. unfold ParserState.items_of in Hi.
    destruct (h !! l) as [[|vs']|]; try discriminate. congruence.
  - pose proof (items_of_lt _ _ _ Hi) as Hlt.
    assert (Happ : list_append l v h = (Ok tt, <[l := Items (vs0 ++ [v])]> h)).
    { unfold list_append, bind, load_items, store.
      unfold ParserState.items_of in Hi.
      destruct (h !! l) as [[|vs']|]; try discriminate.
      injection Hi as ->. reflexivity. }
    cbn [ParserState.appends]. unfold bind at 1. rewrite Happ.
    rewrite (IH _ (vs0 ++ [v])).
    + rewrite list_insert_insert_eq, <- app_assoc. reflexivity.
    + unfold ParserState.items_of. rewrite list_lookup_insert_eq by assumption.
      reflexivity.
Qed.

(** The copy of a candidate: six new lists at the end of the store. *)
Lemma ParserState_copy_spec (ps : ParserState.t) h fb fs fa vi vc vo :
  frames_of h (ParserState.buffer_stackrnn ps) = Some fb ->
  frames_of h (ParserState.stack_stackrnn ps) = Some fs ->
  frames_of h (ParserState.action_stackrnn ps) = Some fa ->
  ParserState.items_of h (ParserState.predicted_actions_idx ps) = Some vi ->
  ParserState.items_of h (ParserState.action_scores ps) = Some vc ->
  ParserState.items_of h (ParserState.is_open_NT ps) = Some vo ->
  ParserState.copy ps h =
    (Ok {| ParserState.buffer_stackrnn :=
             {| empty := empty (ParserState.buffer_stackrnn ps);
                lstm := lstm (ParserState.buffer_stackrnn ps);
                stack := Some (length h) |};
           ParserState.stack_stackrnn :=
             {| empty := empty (ParserState.stack_stackrnn ps);
                lstm := lstm (ParserState.stack_stackrnn ps);
                stack := Some (length h + 1)%nat |};
           ParserState.action_stackrnn :=
             {| empty := empty (ParserState.action_stackrnn ps);
                lstm := lstm (ParserState.action_stackrnn ps);
                stack := Some (length h + 2)%nat |};
           ParserState.predicted_actions_idx := (length h + 3)%nat;
           ParserState.action_scores := (length h + 4)%nat;
           ParserState.num_open_NT := ParserState.num_open_NT ps;
           ParserState.is_open_NT := (length h + 5)%nat;
           ParserState.found_unsupported := ParserState.found_unsupported ps;
           ParserState.neg_prob := ParserState.neg_prob ps |},
     h ++ [Frames fb; Frames fs; Frames fa; Items vi; Items vc; Items vo]).
Proof.
  intros Hb Hs Ha Hi Hc Ho.
  unfold ParserState.copy.
  unfold bind at 1. rewrite (copy_spec _ _ _ Hb).
  unfold bind at 1. rewrite (copy_spec _ _ _ (frames_of_app _ _ _ _ Hs)).
  unfold bind at 1.
  rewrite (copy_spec _ _ _ (frames_of_app _ _ _ _ (frames_of_app _ _ _ _ Ha))).
  unfold bind at 1.
  rewrite (list_copy_spec _ _ _
             (items_of_app _ _ _ _ (items_of_app _ _ _ _ (items_of_app _ _ _ _ Hi)))).
  unfold bind at 1.
  rewrite (list_copy_spec _ _ _
             (items_of_app _ _ _ _ (items_of_app _ _ _ _ (items_of_app _ _ _ _
               (items_of_app _ _ _ _ Hc))))).
  unfold bind at 1.
  rewrite (list_copy_spec _ _ _
             (items_of_app _ _ _ _ (items_of_app _ _ _ _ (items_of_app _ _ _ _
               (items_of_app _ _ _ _ (items_of_app _ _ _ _ Ho)))))).
  unfold ret. rewrite !length_app. cbn [length].
  rewrite <- !app_assoc. cbn [app].
  rewrite <- !Nat.add_assoc. cbn [Nat.add]. reflexivity.
Qed.
Lemma list_len_spec h l vs :
  ParserState.items_of h l = Some vs ->
  list_len l h = (Ok (Z.of_nat (length vs)), h).
Proof.
  unfold ParserState.items_of, list_len, bind, load_items, ret.
  destruct (h !! l) as [[|vs']|]; try discriminate.
  intros [= ->]. reflexivity.
Qed.

Lemma items_of_insert_ne h l l' c :
  l <> l' -> ParserState.items_of (<[l' := c]> h) l = ParserState.items_of h l.
Proof.
  intros Hne. unfold ParserState.items_of.
  rewrite list_lookup_insert_ne by congruence. reflexivity.
Qed.

Lemma frames_of_copied self h fs :
  frames_of (h ++ [Frames fs])
    {| empty := empty self; lstm := lstm self; stack := Some (length h) |} = Some fs.
Proof.
  unfold frames_of. cbn [stack]. rewrite lookup_app_r by lia.
  rewrite Nat.sub_diag. reflexivity.
Qed.

(** C5: for every stack whose frame list is in the store, and for every
    well-formed candidate, each on its own: a stack and its copy do not see
    each other's pushes and pops: after
    any sequence of calls on the copy, [len] and [element_from_top(0)] of
    the original answer as before the copy was made, and after any sequence
    of calls on the original those of the copy answer as when it was made;
    and whatever is appended to [predicted_actions_idx] of the copy of a
    candidate, the list of the original keeps its items and its length. *)
Theorem copy_independent :
  (forall self h fs,
   frames_of h self = Some fs ->
   exists other h1,
     copy self h = (Ok other, h1) /\
     (forall ops, let h2 := snd (run other ops h1) in
        fst (__len__ self h2) = fst (__len__ self h) /\
        fst (element_from_top self 0 h2) = fst (element_from_top self 0 h)) /\
     (forall ops, let h2 := snd (run self ops h1) in
        fst (__len__ other h2) = fst (__len__ other h1) /\
        fst (element_from_top other 0 h2) = fst (element_from_top other 0 h1)))
  /\
  (forall (ps : ParserState.t) h vs0,
   ParserState.well_formed h ps ->
   ParserState.items_of h (ParserState.predicted_actions_idx ps) = Some vs0 ->
   exists other h1,
     ParserState.copy ps h = (Ok other, h1) /\
     forall vs, exists h2,
       ParserState.appends (ParserState.predicted_actions_idx other) vs h1 = (Ok tt, h2) /\
       ParserState.items_of h2 (ParserState.predicted_actions_idx other) = Some (vs0 ++ vs) /\
       ParserState.items_of h2 (ParserState.predicted_actions_idx ps) = Some vs0 /\
       list_len (ParserState.predicted_actions_idx ps) h2
         = (Ok (Z.of_nat (length vs0)), h2)).
Proof.
  split.
  - intros self h fs Hf.
    set (other := {| empty := empty self; lstm := lstm self; stack := Some (length h) |}).
    exists other, (h ++ [Frames fs]).
    pose proof (frames_of_app _ _ [Frames fs] _ Hf) as Hself.
    pose proof (frames_of_copied self h fs) as Hother. fold other in Hother.
    assert (Hne : stack other <> stack self).
    { destruct (stack self) as [l|] eqn:Hs; [|discriminate].
      pose proof (frames_of_lt _ _ _ _ Hf Hs). cbn. intros [= E]. lia. }
    split; [apply copy_spec; assumption|]. split.
    + intros ops h2.
      assert (Hf2 : frames_of h2 self = Some fs).
      { subst h2. rewrite run_frames_of_other by assumption. exact Hself. }
      split.
      * apply (len_by_frames _ _ _ _ fs); assumption.
      * apply (element_from_top_by_frames _ _ _ _ fs); assumption.
    + intros ops h2.
      assert (Hf2 : frames_of h2 other = Some fs).
      { subst h2. rewrite run_frames_of_other by congruence. exact Hother. }
      split.
      * apply (len_by_frames _ _ _ _ fs); assumption.
      * apply (element_from_top_by_frames _ _ _ _ fs); assumption.
  - intros ps h vs0 Hwf Hi.
    destruct Hwf as ([fb Hb] & [fk Hk] & [fa Ha] & _ & [vc Hc] & [vo Ho]).
    eexists _, _. split.
    + apply (ParserState_copy_spec ps h fb fk fa vs0 vc vo); assumption.
    + intros vs. cbn [ParserState.predicted_actions_idx].
      set (h1 := h ++ [Frames fb; Frames fk; Frames fa; Items vs0; Items vc; Items vo]).
      assert (Hcopy : ParserState.items_of h1 (length h + 3)%nat = Some vs0).
      { unfold ParserState.items_of, h1. rewrite lookup_app_r by lia.
        replace (length h + 3 - length h)%nat with 3%nat by lia. reflexivity. }
      pose proof (items_of_lt _ _ _ Hi) as Hlt.
      pose proof (items_of_lt _ _ _ Hcopy) as Hlt'.
      assert (Horig : ParserState.items_of
                        (<[(length h + 3)%nat := Items (vs0 ++ vs)]> h1)
                        (ParserState.predicted_actions_idx ps) = Some vs0).
      { rewrite items_of_insert_ne by lia. apply items_of_app. exact Hi. }
      exists (<[(length h + 3)%nat := Items (vs0 ++ vs)]> h1). repeat split.
      * apply appends_spec. exact Hcopy.
      * unfold ParserState.items_of. rewrite list_lookup_insert_eq by assumption.
        reflexivity.
      * exact Horig.
      * apply list_len_spec. exact Horig.
Qed.

(** C10: for every stack whose frame list is in the store, and for every
    well-formed candidate, each on its own: when a copy is made, the copy
    has the same recurrent cell and the
    same empty-stack vector, the same frames and so the same [len], and at
    every offset from 0 to the depth (the deepest one reaches the root)
    [element_from_top] returns the same element on the copy as on the
    original; the copy of a candidate has stacks with the same frames, lists
    with the same items, and the same [num_open_NT], [neg_prob] and
    [found_unsupported]. *)
Theorem copy_preserves :
  (forall self h fs,
   frames_of h self = Some fs ->
   exists other h1,
     copy self h = (Ok other, h1) /\
     lstm other = lstm self /\
     empty other = empty self /\
     frames_of h1 other = Some fs /\
     frames_of h1 self = Some fs /\
     __len__ other h1 = (fst (__len__ self h), h1) /\
     forall i, 0 <= i <= Z.of_nat (length fs) - 1 ->
       exists el,
         element_from_top self i h = (Ok el, h) /\
         element_from_top other i h1 = (Ok el, h1))
  /\
  (forall (ps : ParserState.t) h,
   ParserState.well_formed h ps ->
   exists other h1,
     ParserState.copy ps h = (Ok other, h1) /\
     frames_of h1 (ParserState.buffer_stackrnn other)
       = frames_of h (ParserState.buffer_stackrnn ps) /\
     frames_of h1 (ParserState.stack_stackrnn other)
       = frames_of h (ParserState.stack_stackrnn ps) /\
     frames_of h1 (ParserState.action_stackrnn other)
       = frames_of h (ParserState.action_stackrnn ps) /\
     ParserState.items_of h1 (ParserState.predicted_actions_idx other)
       = ParserState.items_of h (ParserState.predicted_actions_idx ps) /\
     ParserState.items_of h1 (ParserState.action_scores other)
       = ParserState.items_of h (ParserState.action_scores ps) /\
     ParserState.num_open_NT other = ParserState.num_open_NT ps /\
     ParserState.items_of h1 (ParserState.is_open_NT other)
       = ParserState.items_of h (ParserState.is_open_NT ps) /\
     ParserState.neg_prob other = ParserState.neg_prob ps /\
     ParserState.found_unsupported other = ParserState.found_unsupported ps).
Proof.
  split.
  - intros self h fs Hf.
    set (other := {| empty := empty self; lstm := lstm self; stack := Some (length h) |}).
    exists other, (h ++ [Frames fs]).
    pose proof (frames_of_app _ _ [Frames fs] _ Hf) as Hself.
    pose proof (frames_of_copied self h fs) as Hother. fold other in Hother.
    split; [apply copy_spec; assumption|].
    repeat split; try assumption.
    + rewrite (len_spec _ _ _ Hother), (len_spec _ _ _ Hf). reflexivity.
    + intros i Hi.
      pose proof (element_from_top_spec _ _ _ i Hf ltac:(lia)) as E1.
      pose proof (element_from_top_spec _ _ _ i Hother ltac:(lia)) as E2.
      destruct (fs !! (length fs - 1 - Z.to_nat i)%nat) as [f|] eqn:Hlook.
      * exists (snd (snd f)). split; assumption.
      * apply lookup_ge_None in Hlook. lia.
  - intros ps h Hwf.
    destruct Hwf as ([fb Hb] & [fk Hk] & [fa Ha] & [vi Hi] & [vc Hc] & [vo Ho]).
    eexists _, _. split.
    + apply (ParserState_copy_spec ps h fb fk fa vi vc vo); assumption.
    + cbn [ParserState.buffer_stackrnn ParserState.stack_stackrnn
           ParserState.action_stackrnn ParserState.predicted_actions_idx
           ParserState.action_scores ParserState.num_open_NT ParserState.is_open_NT
           ParserState.neg_prob ParserState.found_unsupported].
      rewrite Hb, Hk, Ha, Hi, Hc, Ho.
      unfold frames_of, ParserState.items_of. cbn [stack].
      rewrite !lookup_app_r by lia.
      replace (length h - length h)%nat with 0%nat by lia.
      replace (length h + 1 - length h)%nat with 1%nat by lia.
      replace (length h + 2 - length h)%nat with 2%nat by lia.
      replace (length h + 3 - length h)%nat with 3%nat by lia.
      replace (length h + 4 - length h)%nat with 4%nat by lia.
      replace (length h + 5 - length h)%nat with 5%nat by lia.
      repeat split.
Qed.
End Copies.

(** ** ParserState: finished and the ranking *)

Section ParserState_claims.
Context `{Torch} `{PyAny}.
Import ParserState.

(** C2: when [len] of the two stacks gives the depths [ds] (stack) and [db]
    (buffer), [finished] returns, changes nothing, and its answer is true
    exactly when [ds = 1] and [db = 0]; it is false for every other pair. *)
Theorem finished_iff_depths (ps : ParserState.t) (h : heap) (ds db : Z) :
  StackLSTM.len (stack_stackrnn ps) h = (Ok ds, h) ->
  StackLSTM.len (buffer_stackrnn ps) h = (Ok db, h) ->
  exists b, finished ps h = (Ok b, h) /\ (b = true <-> ds = 1 /\ db = 0).
Proof.
  intros Hs Hb. unfold finished, bind. rewrite Hs.
  destruct (ds =? 1) eqn:E1.
  - rewrite Hb. unfold ret. exists (db =? 0). split; [reflexivity|].
    apply Z.eqb_eq in E1. rewrite Z.eqb_eq. tauto.
  - unfold ret. exists false. split; [reflexivity|].
    apply Z.eqb_neq in E1. split; [discriminate|tauto].
Qed.

(** C6: [a > b] is [a.neg_prob > b.neg_prob] and [a == b] is
    [a.neg_prob == b.neg_prob] on the two floats; candidates that agree on
    [neg_prob] compare alike whatever their other fields; and of two
    candidates with scores -0.3 and -0.7 the one with -0.7 comes first
    when they are sorted, in whichever order they were given. *)
Theorem ranking_by_neg_prob (a b : ParserState.t) :
  (__gt__ a b = true <-> PrimFloat.ltb (neg_prob b) (neg_prob a) = true) /\
  (__eq__ a b = true <-> PrimFloat.eqb (neg_prob a) (neg_prob b) = true) /\
  (forall a' b' : ParserState.t,
     neg_prob a' = neg_prob a -> neg_prob b' = neg_prob b ->
     __gt__ a' b' = __gt__ a b /\ __eq__ a' b' = __eq__ a b) /\
  (neg_prob a = (-0.3)%float -> neg_prob b = (-0.7)%float ->
     sorted [a; b] = [b; a] /\ sorted [b; a] = [b; a]).
Proof.
  split; [unfold __gt__; tauto|]. split; [unfold __eq__; tauto|]. split.
  - intros a' b' Ha Hb. unfold __gt__, __eq__. rewrite Ha, Hb. split; reflexivity.
  - intros Ha Hb. unfold sorted. cbn. unfold lt, __gt__. rewrite Ha, Hb.
    split; reflexivity.
Qed.
End ParserState_claims.

(** ** Composition functions *)

Section Composition.
Context `{CudaUtils}.
Import CompositionalNN.

Implicit Types (self : CompositionalNN.t) (x : list Tensor) (g : Rng).

Lemma py_init_snoc {A} (l : list A) (a : A) : py_init (l ++ [a]) = l.
Proof. unfold py_init. apply removelast_last. Qed.

(** The first slice of the output of an LSTM over a non-empty sequence is
    the hidden vector after the first step. *)
Lemma LSTM_call_first (m : LSTM) (a : Tensor) (rest : list Tensor) (s : State) :
  py_getitem (fst (LSTM_call m (a :: rest) s)) 0 = Ok (lstm_output (lstm_step m a s)).
Proof.
  cbn [LSTM_call]. destruct (LSTM_call m rest (lstm_step m a s)) as [out sn].
  reflexivity.
Qed.

(** [forward] makes its four draws and then computes without the generator. *)
Lemma forward_from_initial_states self x g :
  forward self x g =
    match initial_states self g with
    | (Ok (f, r), g') =>
        (match py_getitem x (-1) with
         | Raise e => Raise e
         | Ok nt =>
             match py_getitem (fst (LSTM_call (lstm_fwd self) (nt :: rev (py_init x)) f)) 0,
                   py_getitem (fst (LSTM_call (lstm_rev self) (nt :: py_init x) r)) 0 with
             | Ok a, Ok b =>
                 Ok (Sequential_Linear_Tanh (linear_seq self) (cat_dim1 a b))
             | Raise e, _ => Raise e
             | Ok _, Raise e => Raise e
             end
         end, g')
    | (Raise e, g') => (Raise e, g')
    end.
Proof.
  unfold forward, initial_states, bind, draw, lift, ret.
  destruct (xaviervar [1; 1; lstm_dim self] g) as [hf g1].
  destruct (xaviervar [1; 1; lstm_dim self] g1) as [cf g2].
  destruct (xaviervar [1; 1; lstm_dim self] g2) as [hr g3].
  destruct (xaviervar [1; 1; lstm_dim self] g3) as [cr g4].
  destruct (py_getitem x (-1)) as [nt|e]; [|reflexivity].
  cbn [app].
  destruct (py_getitem (fst (LSTM_call (lstm_fwd self) (nt :: rev (py_init x)) (hf, cf))) 0);
    [|reflexivity].
  destruct (py_getitem (fst (LSTM_call (lstm_rev self) (nt :: py_init x) (hr, cr))) 0);
    reflexivity.
Qed.

Lemma initial_states_ok self g :
  exists f r g', initial_states self g = (Ok (f, r), g').
Proof.
  unfold initial_states, bind, draw, ret.
  destruct (xaviervar [1; 1; lstm_dim self] g) as [hf g1].
  destruct (xaviervar [1; 1; lstm_dim self] g1) as [cf g2].
  destruct (xaviervar [1; 1; lstm_dim self] g2) as [hr g3].
  destruct (xaviervar [1; 1; lstm_dim self] g3) as [cr g4].
  eauto.
Qed.

(** What the code computes on [children ++ [nt]]: each pass contributes its
    hidden vector after the first step, the one that read [nt]. *)
Lemma forward_first_step self children nt g f r g' :
  initial_states self g = (Ok (f, r), g') ->
  forward self (children ++ [nt]) g =
    (Ok (Sequential_Linear_Tanh (linear_seq self)
           (cat_dim1 (lstm_output (lstm_step (lstm_fwd self) nt f))
                     (lstm_output (lstm_step (lstm_rev self) nt r)))), g').
Proof.
  intros Hi. rewrite forward_from_initial_states, Hi.
  rewrite py_getitem_last, !LSTM_call_first. reflexivity.
Qed.

(** C9, the half about the bidirectional variant, as the code has it: the
    output for [children ++ [nt]] is the same for every list of children, so
    no permutation of the entries before the last changes it. *)
Theorem bidirectional_ignores_children self children children' nt g :
  forward self (children ++ [nt]) g = forward self (children' ++ [nt]) g.
Proof.
  destruct (initial_states_ok self g) as (f & r & g' & Hi).
  rewrite (forward_first_step _ children _ _ _ _ _ Hi).
  rewrite (forward_first_step _ children' _ _ _ _ _ Hi).
  reflexivity.
Qed.

(** C8, as the code has it: two calls of the bidirectional variant on the
    same input return the same output when the four tensors they start
    from are the same; the summation variant draws nothing and its output
    is the same at every state of the generator. *)
Theorem composition_same_output_given_initial_states
    self (sum : CompositionalSummationNN.t) x g1 g2 :
  fst (initial_states self g1) = fst (initial_states self g2) ->
  fst (forward self x g1) = fst (forward self x g2) /\
  lift (CompositionalSummationNN.forward sum x) g1
    = (CompositionalSummationNN.forward sum x, g1) /\
  fst (lift (CompositionalSummationNN.forward sum x) g1)
    = fst (lift (CompositionalSummationNN.forward sum x) g2).
Proof.
  intros Heq. split; [|split; reflexivity].
  rewrite !forward_from_initial_states.
  destruct (initial_states self g1) as [[[f1 r1]|e1] g1'],
           (initial_states self g2) as [[[f2 r2]|e2] g2']; cbn [fst] in *;
    try discriminate.
  - injection Heq as -> ->. reflexivity.
  - injection Heq as ->. reflexivity.
Qed.
(** On a list that holds the nonterminal alone the first step is the final
    one, and the code agrees with the wording. *)
Lemma forward_final_hidden_singleton self nt g :
  forward self [nt] g = forward_final_hidden self [nt] g.
Proof.
  unfold forward, forward_final_hidden, bind, draw, lift, ret.
  destruct (xaviervar [1; 1; lstm_dim self] g) as [hf g1].
  destruct (xaviervar [1; 1; lstm_dim self] g1) as [cf g2].
  destruct (xaviervar [1; 1; lstm_dim self] g2) as [hr g3].
  destruct (xaviervar [1; 1; lstm_dim self] g3) as [cr g4].
  reflexivity.
Qed.
End Composition.

(** *** The summation variant under exact addition *)

Section Summation.
Context `{Torch}.
Hypothesis tensor_add_comm : forall a b : Tensor, tensor_add a b = tensor_add b a.
Hypothesis tensor_add_assoc :
  forall a b c : Tensor, tensor_add (tensor_add a b) c = tensor_add a (tensor_add b c).

Lemma fold_add_permutation (l l' : list Tensor) :
  Permutation l l' ->
  forall a, fold_left tensor_add l a = fold_left tensor_add l' a.
Proof.
  induction 1 as [|b l l' _ IH|b c l|l l' l'' _ IH1 _ IH2]; intros a; cbn.
  - reflexivity.
  - apply IH.
  - f_equal. rewrite !tensor_add_assoc. f_equal. apply tensor_add_comm.
  - rewrite IH1. apply IH2.
Qed.

Lemma torch_sum_dim0_permutation (l l' : list Tensor) :
  Permutation l l' ->
  CompositionalSummationNN.torch_sum_dim0 l = CompositionalSummationNN.torch_sum_dim0 l'.
Proof.
  induction 1 as [|b l l' Hp _|b c l|l l' l'' _ IH1 _ IH2]; cbn.
  - reflexivity.
  - f_equal. apply fold_add_permutation. exact Hp.
  - f_equal. f_equal. apply tensor_add_comm.
  - rewrite IH1. exact IH2.
Qed.

(** When the sum of rows is exact, so that it is commutative and
    associative, the summation variant gives the same output for every
    order of the entries before the last. *)
Lemma summation_permutation (self : CompositionalSummationNN.t)
    (children children' : list Tensor) (nt : Tensor) :
  Permutation children children' ->
  CompositionalSummationNN.forward self (children ++ [nt])
    = CompositionalSummationNN.forward self (children' ++ [nt]).
Proof.
  intros Hp. unfold CompositionalSummationNN.forward.
  assert (Hp' : Permutation (children ++ [nt]) (children' ++ [nt]))
    by (apply Permutation_app_tail; exact Hp).
  pose proof (torch_sum_dim0_permutation _ _ Hp') as Hsum.
  unfold CompositionalSummationNN.torch_cat_dim0.
  destruct (children ++ [nt]) eqn:E1; [destruct children; discriminate|].
  destruct (children' ++ [nt]) eqn:E2; [destruct children'; discriminate|].
  rewrite Hsum. reflexivity.
Qed.
End Summation.

Section StackLSTM_examples.
Import Sample.

(** C3 at [StackLSTM(rnn, ([1], [0]), [7])] with push, push, pop, push,
    pop, pop. *)
Lemma push_pop_depth_and_order_witness :
  let ops := [StackLSTM.Push [2] (Element.Element "a"%string);
              StackLSTM.Push [3] (Element.Element "b"%string);
              StackLSTM.Pop;
              StackLSTM.Push [4] (Element.Element "c"%string);
              StackLSTM.Pop; StackLSTM.Pop] in
  StackLSTM.pops_guarded fresh_stack ops fresh_heap = true /\
  exists outs above h',
    StackLSTM.run fresh_stack ops fresh_heap = (Ok outs, h') /\
    StackLSTM.__len__ fresh_stack h' = (Ok (StackLSTM.pushes ops - StackLSTM.pops ops), h') /\
    StackLSTM.frames_of h' fresh_stack = Some (StackLSTM.root_frame initial_state :: above) /\
    Z.of_nat (length above) = StackLSTM.pushes ops - StackLSTM.pops ops /\
    outs = StackLSTM.lifo rnn initial_state [] ops.
Proof.
  intros ops. split; [reflexivity|].
  apply (push_pop_depth_and_order rnn initial_state [7] [] fresh_stack
           fresh_heap ops ops []); reflexivity.
Defined.

(** What that run returns: b, then c, then a. *)
Example push_pop_order_example :
  fst (StackLSTM.run fresh_stack
         [StackLSTM.Push [2] (Element.Element "a"%string);
          StackLSTM.Push [3] (Element.Element "b"%string);
          StackLSTM.Pop;
          StackLSTM.Push [4] (Element.Element "c"%string);
          StackLSTM.Pop; StackLSTM.Pop] fresh_heap)
  = Ok [([6], Element.Element "b"%string);
        ([7], Element.Element "c"%string);
        ([3], Element.Element "a"%string)].
Proof. reflexivity. Qed.

(** C4 at the stack that was just built. *)
Lemma pop_at_depth_0_takes_root_witness :
  StackLSTM.frames_of fresh_heap fresh_stack
    = Some [StackLSTM.root_frame initial_state] /\
  exists h',
    StackLSTM.__len__ fresh_stack fresh_heap = (Ok 0, fresh_heap) /\
    StackLSTM.len fresh_stack fresh_heap = (Ok 0, fresh_heap) /\
    StackLSTM.pop fresh_stack fresh_heap
      = (Ok (snd (StackLSTM.root_frame initial_state)), h') /\
    StackLSTM.frames_of h' fresh_stack = Some [] /\
    StackLSTM.__len__ fresh_stack h' = (Ok (-1), h') /\
    StackLSTM.len fresh_stack h' = (Raise ValueError, h') /\
    StackLSTM.pop fresh_stack h' = (Raise IndexError, h').
Proof.
  split; [reflexivity|].
  apply (pop_at_depth_0_takes_root fresh_stack fresh_heap
           (StackLSTM.root_frame initial_state)).
  reflexivity.
Defined.

(** C4 as stated fails: at depth 0 the call raises no exception, and the
    root frame is gone afterwards. *)
Lemma pop_at_depth_0_does_not_raise :
  fst (StackLSTM.__len__ fresh_stack fresh_heap) = Ok 0 /\
  (forall e, fst (StackLSTM.pop fresh_stack fresh_heap) <> Raise e) /\
  StackLSTM.frames_of (snd (StackLSTM.pop fresh_stack fresh_heap))
    fresh_stack = Some [].
Proof.
  split; [reflexivity|]. split; [|reflexivity].
  intros e. cbv. discriminate.
Qed.

(** C1 at [StackLSTM(rnn, ([1], [0]), [7])]: the depth is 0, the designated
    empty-stack vector is [7], and [embedding] returns [1], the summary of
    the root frame; the store is unchanged. *)
Theorem embedding_at_depth_0_is_root_summary :
  fresh = (Ok fresh_stack, fresh_heap) /\
  StackLSTM.__len__ fresh_stack fresh_heap = (Ok 0, fresh_heap) /\
  StackLSTM.empty fresh_stack = [7] /\
  StackLSTM.embedding fresh_stack fresh_heap = (Ok [1], fresh_heap) /\
  StackLSTM.embedding fresh_stack fresh_heap
    <> (Ok (StackLSTM.empty fresh_stack), fresh_heap).
Proof.
  repeat split; try reflexivity. cbv. discriminate.
Qed.
End StackLSTM_examples.

Section ParserState_examples.
Import Sample.

Example candidate_is_constructed :
  ParserState.__init__ parser [] = (Ok candidate, candidate_heap).
Proof. reflexivity. Qed.

(** C2 at the candidate with one token on its stack and none on its buffer. *)
Lemma finished_iff_depths_witness :
  StackLSTM.len (ParserState.stack_stackrnn candidate) (loaded 1 0)
    = (Ok 1, loaded 1 0) /\
  StackLSTM.len (ParserState.buffer_stackrnn candidate) (loaded 1 0)
    = (Ok 0, loaded 1 0) /\
  exists b, ParserState.finished candidate (loaded 1 0) = (Ok b, loaded 1 0) /\
            (b = true <-> 1 = 1 /\ 0 = 0).
Proof.
  split; [reflexivity|]. split; [reflexivity|].
  apply (finished_iff_depths candidate (loaded 1 0) 1 0); reflexivity.
Defined.

Example finished_stack_1_buffer_0 :
  fst (ParserState.finished candidate (loaded 1 0)) = Ok true.
Proof. reflexivity. Qed.

Example finished_stack_2_buffer_0 :
  fst (ParserState.finished candidate (loaded 2 0)) = Ok false.
Proof. reflexivity. Qed.

Example finished_stack_1_buffer_3 :
  fst (ParserState.finished candidate (loaded 1 3)) = Ok false.
Proof. reflexivity. Qed.

Example finished_stack_0_buffer_0 :
  fst (ParserState.finished candidate (loaded 0 0)) = Ok false.
Proof. reflexivity. Qed.

(** With the root of the buffer popped, [len] of the buffer raises: so does
    [finished] when the stack is at depth 1, while at another depth the
    buffer is not asked. *)
Example finished_buffer_root_popped :
  let popped h := snd (StackLSTM.pop (ParserState.buffer_stackrnn candidate) h) in
  fst (ParserState.finished candidate (popped (loaded 1 0))) = Raise ValueError /\
  fst (ParserState.finished candidate (popped (loaded 2 0))) = Ok false.
Proof. split; reflexivity. Qed.

(** C6 at two candidates that differ in their score only. *)
Lemma ranking_by_neg_prob_witness :
  ParserState.neg_prob (scored (-0.3)) = (-0.3)%float /\
  ParserState.neg_prob (scored (-0.7)) = (-0.7)%float /\
  ParserState.sorted [scored (-0.3); scored (-0.7)]
    = [scored (-0.7); scored (-0.3)] /\
  ParserState.sorted [scored (-0.7); scored (-0.3)]
    = [scored (-0.7); scored (-0.3)].
Proof.
  split; [reflexivity|]. split; [reflexivity|].
  apply (ranking_by_neg_prob (scored (-0.3)) (scored (-0.7))); reflexivity.
Defined.

Example gt_example :
  ParserState.__gt__ (scored (-0.3)) (scored (-0.7)) = true /\
  ParserState.__gt__ (scored (-0.7)) (scored (-0.3)) = false /\
  ParserState.__eq__ (scored (-0.3)) (scored (-0.3)) = true.
Proof. repeat split. Qed.

Lemma busy_well_formed : ParserState.well_formed busy_heap candidate.
Proof. repeat split; eexists; reflexivity. Defined.

(** C5 at the new stack in the store that holds nothing else, and at the
    candidate. *)
Lemma copy_independent_witness :
  (exists other h1,
     StackLSTM.copy fresh_stack fresh_heap = (Ok other, h1) /\
     (forall ops, let h2 := snd (StackLSTM.run other ops h1) in
        fst (StackLSTM.__len__ fresh_stack h2)
          = fst (StackLSTM.__len__ fresh_stack fresh_heap) /\
        fst (StackLSTM.element_from_top fresh_stack 0 h2)
          = fst (StackLSTM.element_from_top fresh_stack 0 fresh_heap)) /\
     (forall ops, let h2 := snd (StackLSTM.run fresh_stack ops h1) in
        fst (StackLSTM.__len__ other h2) = fst (StackLSTM.__len__ other h1) /\
        fst (StackLSTM.element_from_top other 0 h2)
          = fst (StackLSTM.element_from_top other 0 h1)))
  /\
  (exists other h1,
     ParserState.copy candidate busy_heap = (Ok other, h1) /\
     forall vs, exists h2,
       ParserState.appends (ParserState.predicted_actions_idx other) vs h1 = (Ok tt, h2) /\
       ParserState.items_of h2 (ParserState.predicted_actions_idx other)
         = Some ([PyInt 4; PyInt 2] ++ vs) /\
       ParserState.items_of h2 (ParserState.predicted_actions_idx candidate)
         = Some [PyInt 4; PyInt 2] /\
       list_len (ParserState.predicted_actions_idx candidate) h2
         = (Ok (Z.of_nat (length [PyInt 4; PyInt 2])), h2)).
Proof.
  split.
  - eapply (proj1 (@copy_independent torch any) fresh_stack fresh_heap).
    reflexivity.
  - eapply (proj2 (@copy_independent torch any) candidate busy_heap).
    + exact busy_well_formed.
    + reflexivity.
Defined.

(** A push on the copy, seen from both sides. *)
Example copy_then_push_example :
  let original := ParserState.stack_stackrnn candidate in
  let other := {| StackLSTM.empty := [8]; StackLSTM.lstm := rnn;
                  StackLSTM.stack := Some 6%nat |} in
  let h1 := snd (StackLSTM.copy original busy_heap) in
  let h2 := snd (StackLSTM.push other [5] (Element.Element "x"%string) h1) in
  fst (StackLSTM.copy original busy_heap) = Ok other /\
  fst (StackLSTM.__len__ original h2) = Ok 2 /\
  fst (StackLSTM.__len__ other h2) = Ok 3 /\
  fst (StackLSTM.element_from_top original 0 h2) = Ok (Element.Element "tok"%string) /\
  fst (StackLSTM.element_from_top other 0 h2) = Ok (Element.Element "x"%string).
Proof. repeat split. Qed.

(** C10 at the new stack in the store that holds nothing else, and at the
    candidate. *)
Lemma copy_preserves_witness :
  (exists other h1,
     StackLSTM.copy fresh_stack fresh_heap = (Ok other, h1) /\
     StackLSTM.lstm other = StackLSTM.lstm fresh_stack /\
     StackLSTM.empty other = StackLSTM.empty fresh_stack /\
     StackLSTM.frames_of h1 other = Some [StackLSTM.root_frame initial_state] /\
     StackLSTM.frames_of h1 fresh_stack = Some [StackLSTM.root_frame initial_state] /\
     StackLSTM.__len__ other h1
       = (fst (StackLSTM.__len__ fresh_stack fresh_heap), h1) /\
     forall i, 0 <= i <= Z.of_nat (length [StackLSTM.root_frame initial_state]) - 1 ->
       exists el,
         StackLSTM.element_from_top fresh_stack i fresh_heap = (Ok el, fresh_heap) /\
         StackLSTM.element_from_top other i h1 = (Ok el, h1))
  /\
  (exists other h1,
     ParserState.copy candidate busy_heap = (Ok other, h1) /\
     StackLSTM.frames_of h1 (ParserState.buffer_stackrnn other)
       = StackLSTM.frames_of busy_heap (ParserState.buffer_stackrnn candidate) /\
     StackLSTM.frames_of h1 (ParserState.stack_stackrnn other)
       = StackLSTM.frames_of busy_heap (ParserState.stack_stackrnn candidate) /\
     StackLSTM.frames_of h1 (ParserState.action_stackrnn other)
       = StackLSTM.frames_of busy_heap (ParserState.action_stackrnn candidate) /\
     ParserState.items_of h1 (ParserState.predicted_actions_idx other)
       = ParserState.items_of busy_heap (ParserState.predicted_actions_idx candidate) /\
     ParserState.items_of h1 (ParserState.action_scores other)
       = ParserState.items_of busy_heap (ParserState.action_scores candidate) /\
     ParserState.num_open_NT other = ParserState.num_open_NT candidate /\
     ParserState.items_of h1 (ParserState.is_open_NT other)
       = ParserState.items_of busy_heap (ParserState.is_open_NT candidate) /\
     ParserState.neg_prob other = ParserState.neg_prob candidate /\
     ParserState.found_unsupported other = ParserState.found_unsupported candidate).
Proof.
  split.
  - eapply (proj1 (@copy_preserves torch any) fresh_stack fresh_heap).
    reflexivity.
  - eapply (proj2 (@copy_preserves torch any) candidate busy_heap).
    exact busy_well_formed.
Defined.

Example copy_candidate_example :
  let other := fst (ParserState.copy candidate busy_heap) in
  let h1 := snd (ParserState.copy candidate busy_heap) in
  exists c, other = Ok c /\
    ParserState.items_of h1 (ParserState.predicted_actions_idx c)
      = Some [PyInt 4; PyInt 2] /\
    ParserState.predicted_actions_idx c <> ParserState.predicted_actions_idx candidate /\
    fst (StackLSTM.element_from_top (ParserState.stack_stackrnn c) 2 h1)
      = Ok (Element.Element "Root"%string).
Proof. eexists. repeat split. intros E. vm_compute in E. discriminate E. Qed.
End ParserState_examples.

Section Composition_examples.
Import Sample.

(** C7 at a list with one child, [5], before the nonterminal [10], the
    generator at 0: the initial states are ([0], [1]) and ([2], [3]).  The
    code returns the hidden vectors after the nonterminal alone, 0 + 10 and
    2 + 10; the final hidden vectors of the two passes are 0 + 10 + 5 and
    2 + 10 + 5. *)
Theorem bidirectional_takes_first_step_not_final :
  CompositionalNN.forward net [[5]; [10]] 0 = (Ok [10; 12], 4) /\
  CompositionalNN.forward_final_hidden net [[5]; [10]] 0 = (Ok [15; 17], 4) /\
  CompositionalNN.forward net [[5]; [10]] 0
    <> CompositionalNN.forward_final_hidden net [[5]; [10]] 0.
Proof.
  repeat split. cbv. discriminate.
Qed.

(** C8 as stated fails: with a generator that yields a new tensor at each
    draw, the second call on the same input returns another output. *)
Lemma bidirectional_two_calls_differ :
  let first := CompositionalNN.forward net [[5]; [10]] 0 in
  let second := CompositionalNN.forward net [[5]; [10]] (snd first) in
  fst first = Ok [10; 12] /\ fst second = Ok [14; 16] /\ fst first <> fst second.
Proof.
  repeat split. cbv. discriminate.
Qed.

(** C8, as the code has it, at a source that yields the same tensor at each
    draw: the calls at generator states 0 and 4 start from the same initial
    states. *)
Lemma composition_same_output_given_initial_states_witness :
  fst (@CompositionalNN.initial_states torch constant_utils net 0)
    = fst (@CompositionalNN.initial_states torch constant_utils net 4) /\
  fst (@CompositionalNN.forward torch constant_utils net [[5]; [10]] 0)
    = fst (@CompositionalNN.forward torch constant_utils net [[5]; [10]] 4) /\
  lift (CompositionalSummationNN.forward sum_net [[5]; [10]]) (0 : @Rng _ constant_utils)
    = (CompositionalSummationNN.forward sum_net [[5]; [10]], 0) /\
  fst (lift (CompositionalSummationNN.forward sum_net [[5]; [10]]) 0)
    = fst (lift (CompositionalSummationNN.forward sum_net [[5]; [10]]) 4).
Proof.
  split; [reflexivity|].
  apply (@composition_same_output_given_initial_states torch constant_utils
           net sum_net [[5]; [10]] 0 4).
  reflexivity.
Defined.

(** C9 at two children in both orders: the bidirectional variant returns
    the same output. *)
Example bidirectional_children_swapped :
  CompositionalNN.forward net [[5]; [6]; [10]] 0 = (Ok [10; 12], 4) /\
  CompositionalNN.forward net [[6]; [5]; [10]] 0 = (Ok [10; 12], 4).
Proof. repeat split. Qed.

Example summation_children_swapped :
  CompositionalSummationNN.forward sum_net [[5]; [6]; [10]] = Ok [21] /\
  CompositionalSummationNN.forward sum_net [[6]; [5]; [10]] = Ok [21].
Proof. repeat split. Qed.
End Composition_examples.

(** * Further properties of StackLSTM *)

Lemma py_getitem_snoc_below {A} (l : list A) (x : A) (k : Z) :
  k < -1 -> py_getitem (l ++ [x]) k = py_getitem l (k + 1).
Proof.
  intros Hk. unfold py_getitem. rewrite length_app, Nat2Z.inj_add. cbn [length].
  replace (k <? 0) with true by (symmetry; apply Z.ltb_lt; lia).
  replace (k + 1 <? 0) with true by (symmetry; apply Z.ltb_lt; lia).
  replace (k + (Z.of_nat (length l) + Z.of_nat 1)) with (k + 1 + Z.of_nat (length l)) by lia.
  destruct (0 <=? k + 1 + Z.of_nat (length l)) eqn:E0; [|reflexivity].
  apply Z.leb_le in E0.
  replace (k + 1 + Z.of_nat (length l) <? Z.of_nat (length l) + Z.of_nat 1) with true
    by (symmetry; apply Z.ltb_lt; lia).
  replace (k + 1 + Z.of_nat (length l) <? Z.of_nat (length l)) with true
    by (symmetry; apply Z.ltb_lt; lia).
  cbn [andb]. rewrite lookup_app_l by lia. reflexivity.
Qed.

Lemma py_getitem_out_of_range {A} (l : list A) (k : Z) :
  k < - Z.of_nat (length l) \/ Z.of_nat (length l) <= k ->
  py_getitem l k = Raise IndexError.
Proof.
  intros Hk. unfold py_getitem.
  destruct (k <? 0) eqn:E.
  - apply Z.ltb_lt in E.
    replace (0 <=? k + Z.of_nat (length l)) with false
      by (symmetry; apply Z.leb_gt; lia).
    reflexivity.
  - apply Z.ltb_ge in E.
    replace (k <? Z.of_nat (length l)) with false by (symmetry; apply Z.ltb_ge; lia).
    rewrite andb_false_r. reflexivity.
Qed.

Lemma py_getitem_in_range {A} (l : list A) (k : Z) :
  - Z.of_nat (length l) <= k < Z.of_nat (length l) ->
  exists a, py_getitem l k = Ok a.
Proof.
  intros Hk. unfold py_getitem.
  set (i := if k <? 0 then k + Z.of_nat (length l) else k).
  assert (Hi : 0 <= i < Z.of_nat (length l)).
  { subst i. destruct (k <? 0) eqn:E; [apply Z.ltb_lt in E|apply Z.ltb_ge in E]; lia. }
  replace (0 <=? i) with true by (symmetry; apply Z.leb_le; lia).
  replace (i <? Z.of_nat (length l)) with true by (symmetry; apply Z.ltb_lt; lia).
  cbn [andb].
  destruct (l !! Z.to_nat i) as [a|] eqn:E; [eauto|].
  apply lookup_ge_None in E. lia.
Qed.

Lemma py_getitem_negative {A} (l : list A) (k : Z) :
  - Z.of_nat (length l) <= k < 0 ->
  py_getitem l k = py_getitem l (k + Z.of_nat (length l)).
Proof.
  intros Hk. unfold py_getitem.
  replace (k <? 0) with true by (symmetry; apply Z.ltb_lt; lia).
  replace (k + Z.of_nat (length l) <? 0) with false by (symmetry; apply Z.ltb_ge; lia).
  reflexivity.
Qed.

Section StackLSTM_more.
Context `{Torch} `{PyAny}.
Import StackLSTM.

Implicit Types (self : StackLSTM.t) (h : heap) (fs : list Frame).

(** X1: a push followed by a pop gives back the pushed element with the
    summary of the state the push computed from the old top state, and
    leaves the store exactly as it was before the push. *)
Theorem push_then_pop_restores self h front top expression element :
  frames_of h self = Some (front ++ [top]) ->
  exists h1,
    push self expression element h = (Ok tt, h1) /\
    pop self h1 =
      (Ok (_lstm_output (lstm_step (lstm self) expression (fst top)), element), h).
Proof.
  intros (l & Hs & Hl)%frames_of_Some.
  assert (Hlt : (l < length h)%nat) by (apply lookup_lt_is_Some; eauto).
  eexists. split; [apply (push_spec self h front top _ _ l Hs Hl)|].
  rewrite (pop_spec self _ (front ++ [top])
             (new_frame (lstm self) expression element (fst top)) l Hs)
    by (apply list_lookup_insert_eq; assumption).
  rewrite list_insert_insert_eq, list_insert_id by assumption. reflexivity.
Qed.

Lemma run_app self (a b : list op) : forall h,
  run self (a ++ b) h =
    match run self a h with
    | (Ok o1, h1) =>
        match run self b h1 with
        | (Ok o2, h2) => (Ok (o1 ++ o2), h2)
        | (Raise e, h2) => (Raise e, h2)
        end
    | (Raise e, h1) => (Raise e, h1)
    end.
Proof.
  induction a as [|[expression element|] a IH]; intros h.
  - cbn. unfold ret. destruct (run self b h) as [[o2|e] h2]; reflexivity.
  - cbn [app run]. unfold bind.
    destruct (push self expression element h) as [[[]|e] h1]; [|reflexivity].
    apply IH.
  - cbn [app run]. unfold bind.
    destruct (pop self h) as [[p|e] h1]; [|reflexivity].
    rewrite IH. destruct (run self a h1) as [[o1|e] h2]; [|reflexivity].
    unfold ret. destruct (run self b h2) as [[o2|e] h3]; reflexivity.
Qed.

Lemma repeat_snoc {A} (a : A) (n : nat) : repeat a (S n) = repeat a n ++ [a].
Proof. induction n as [|n IH]; [reflexivity|]. cbn in *. rewrite <- IH. reflexivity. Qed.

(** X2: on a stack with at least one frame, pushing any items and then
    popping as many times returns their elements in the reverse order and
    leaves the store exactly as it was. *)
Theorem push_all_then_pop_all self (items : list (Tensor * Element.t)) :
  forall h front top,
  frames_of h self = Some (front ++ [top]) ->
  exists outs,
    run self (push_all items ++ repeat Pop (length items)) h = (Ok outs, h) /\
    map snd outs = rev (map snd items).
Proof.
  induction items as [|[expression element] items IH]; intros h front top Hf.
  - exists []. split; reflexivity.
  - destruct (push_then_pop_restores self h front top expression element Hf)
      as (h1 & Hpush & Hpop).
    pose proof Hf as (l & Hs & Hl)%frames_of_Some.
    assert (Hf1 : frames_of h1 self
                  = Some ((front ++ [top]) ++
                          [new_frame (lstm self) expression element (fst top)])).
    { rewrite (push_spec self h front top _ _ l Hs Hl) in Hpush.
      injection Hpush as <-. apply frames_of_Some. exists l. split; [assumption|].
      apply list_lookup_insert_eq. apply lookup_lt_is_Some. eauto. }
    destruct (IH h1 _ _ Hf1) as (outs & Hrun & Hout).
    exists (outs ++ [(_lstm_output (lstm_step (lstm self) expression (fst top)), element)]).
    split.
    + cbn [push_all map length app fst snd]. rewrite repeat_snoc.
      cbn [run]. unfold bind at 1. rewrite Hpush.
      rewrite app_assoc, run_app. fold (push_all items). rewrite Hrun.
      cbn [run]. unfold bind, ret. rewrite Hpop. reflexivity.
    + rewrite map_app, Hout. reflexivity.
Qed.

(** X3: after a push on a stack with at least one frame, the depth is one
    more, offset 0 holds the pushed element, [embedding] is the summary of
    the state computed from the old top state and the pushed vector, and
    every offset [i + 1] answers what offset [i] answered before. *)
Theorem push_shifts_offsets self h front top expression element :
  frames_of h self = Some (front ++ [top]) ->
  exists h1,
    push self expression element h = (Ok tt, h1) /\
    __len__ self h1 = (Ok (Z.of_nat (length (front ++ [top]))), h1) /\
    __len__ self h = (Ok (Z.of_nat (length (front ++ [top])) - 1), h) /\
    element_from_top self 0 h1 = (Ok element, h1) /\
    embedding self h1
      = (Ok (_lstm_output (lstm_step (lstm self) expression (fst top))), h1) /\
    forall i, 0 <= i ->
      fst (element_from_top self (i + 1) h1) = fst (element_from_top self i h).
Proof.
  intros Hf. pose proof Hf as (l & Hs & Hl)%frames_of_Some.
  set (f := new_frame (lstm self) expression element (fst top)).
  assert (Hf1 : frames_of (<[l := Frames ((front ++ [top]) ++ [f])]> h) self
                = Some ((front ++ [top]) ++ [f])).
  { apply frames_of_Some. exists l. split; [assumption|].
    apply list_lookup_insert_eq. apply lookup_lt_is_Some. eauto. }
  eexists. split; [apply (push_spec self h front top _ _ l Hs Hl)|].
  fold f. repeat split.
  - rewrite (len_spec _ _ _ Hf1). f_equal. f_equal.
    rewrite (length_app (front ++ [top])). cbn [length]. lia.
  - apply len_spec. exact Hf.
  - rewrite (element_from_top_frames _ _ _ _ Hf1).
    change (- (0 + 1)) with (-1). rewrite py_getitem_last. reflexivity.
  - apply (embedding_spec _ _ _ f Hf1).
  - intros i Hi.
    rewrite (element_from_top_frames _ _ _ _ Hf1), (element_from_top_frames _ _ _ _ Hf).
    cbn [fst]. rewrite py_getitem_snoc_below by lia.
    replace (- (i + 1 + 1) + 1) with (- (i + 1)) by lia. reflexivity.
Qed.

(** X4: with [n] frames in the list, [element_from_top(i)] returns an
    element exactly when [-n <= i < n] and raises IndexError otherwise; a
    negative index in that range is not refused: it answers as the offset
    [n + i], so that [-1] reads the bottom frame. *)
Theorem element_from_top_range self h fs i :
  frames_of h self = Some fs ->
  ((exists el, element_from_top self i h = (Ok el, h)) <->
     - Z.of_nat (length fs) <= i < Z.of_nat (length fs)) /\
  (i < - Z.of_nat (length fs) \/ Z.of_nat (length fs) <= i ->
     element_from_top self i h = (Raise IndexError, h)) /\
  (- Z.of_nat (length fs) <= i < 0 ->
     element_from_top self i h
       = element_from_top self (Z.of_nat (length fs) + i) h).
Proof.
  intros Hf. rewrite !(element_from_top_frames _ _ _ _ Hf).
  assert (Hout : i < - Z.of_nat (length fs) \/ Z.of_nat (length fs) <= i ->
                 py_getitem fs (- (i + 1)) = Raise IndexError).
  { intros Hi. apply py_getitem_out_of_range. lia. }
  split; [|split].
  - split.
    + intros [el Hel].
      destruct (Z_lt_dec i (- Z.of_nat (length fs))) as [Hlo|Hlo];
        [rewrite Hout in Hel by lia; discriminate|].
      destruct (Z_le_dec (Z.of_nat (length fs)) i) as [Hhi|Hhi];
        [rewrite Hout in Hel by lia; discriminate|].
      lia.
    + intros Hi.
      destruct (py_getitem_in_range fs (- (i + 1))) as [f Hget]; [lia|].
      rewrite Hget. eauto.
  - intros Hi. rewrite (Hout Hi). reflexivity.
  - intros Hi. unfold py_getitem.
    replace (- (i + 1) <? 0) with false by (symmetry; apply Z.ltb_ge; lia).
    replace (- (Z.of_nat (length fs) + i + 1) <? 0) with true
      by (symmetry; apply Z.ltb_lt; lia).
    replace (- (Z.of_nat (length fs) + i + 1) + Z.of_nat (length fs))
      with (- (i + 1)) by lia.
    reflexivity.
Qed.

(** X7: once the root frame has been popped the stack is of no more use:
    every push and every pop raises IndexError and changes nothing, so does
    every sequence of calls that is not empty, while [__len__] gives -1, so
    that [len] raises ValueError, and [embedding] answers the empty-stack
    vector. *)
Theorem no_frame_is_final self h (o : op) (ops : list op) :
  frames_of h self = Some [] ->
  run self (o :: ops) h = (Raise IndexError, h) /\
  __len__ self h = (Ok (-1), h) /\
  len self h = (Raise ValueError, h) /\
  embedding self h = (Ok (empty self), h).
Proof.
  intros Hf. pose proof Hf as (l & Hs & Hl)%frames_of_Some.
  split; [|split; [|split]].
  - destruct o as [expression element|]; cbn [run]; unfold bind at 1.
    + unfold push, bind, load_frames, lift. rewrite Hs, Hl.
      rewrite py_getitem_nil. reflexivity.
    + rewrite (pop_no_frame _ _ Hf). reflexivity.
  - rewrite (len_spec _ _ _ Hf). reflexivity.
  - apply builtin_len_no_frame. exact Hf.
  - apply embedding_no_frame. exact Hf.
Qed.
End StackLSTM_more.

(** ** The frames of a stack are those of the items still on it *)

Section StackLSTM_live.
Context `{Torch} `{PyAny}.
Import StackLSTM.

Implicit Types (self : StackLSTM.t) (h : heap) (items : list (Tensor * Element.t)).

Lemma LSTM_call_snd_cons (m : LSTM) (x : Tensor) (xs : list Tensor) (s : State) :
  snd (LSTM_call m (x :: xs) s) = snd (LSTM_call m xs (lstm_step m x s)).
Proof.
  cbn [LSTM_call]. destruct (LSTM_call m xs (lstm_step m x s)). reflexivity.
Qed.

Lemma LSTM_call_snd_snoc (m : LSTM) (xs : list Tensor) (x : Tensor) : forall s,
  snd (LSTM_call m (xs ++ [x]) s) = lstm_step m x (snd (LSTM_call m xs s)).
Proof.
  induction xs as [|y xs IH]; intros s.
  - reflexivity.
  - cbn [app]. rewrite !LSTM_call_snd_cons. apply IH.
Qed.

Lemma frames_for_snoc (m : LSTM) items i : forall s,
  frames_for m s (items ++ [i]) =
    frames_for m s items ++
      [new_frame m (fst i) (snd i) (snd (LSTM_call m (map fst items) s))].
Proof.
  induction items as [|j items IH]; intros s.
  - reflexivity.
  - cbn [app frames_for map]. rewrite IH, LSTM_call_snd_cons. reflexivity.
Qed.

Lemma frames_for_length (m : LSTM) items : forall s,
  length (frames_for m s items) = length items.
Proof.
  induction items as [|j items IH]; intros s; [reflexivity|].
  cbn. rewrite IH. reflexivity.
Qed.

Lemma frames_for_elements (m : LSTM) items : forall s,
  map (fun f : Frame => snd (snd f)) (frames_for m s items) = map snd items.
Proof.
  induction items as [|j items IH]; intros s; [reflexivity|].
  cbn. rewrite IH. reflexivity.
Qed.

(** The top frame above [root] carries the state of the LSTM after the
    vectors of the items. *)
Lemma frames_for_top (m : LSTM) (root : Frame) items :
  exists front top,
    root :: frames_for m (fst root) items = front ++ [top] /\
    fst top = snd (LSTM_call m (map fst items) (fst root)).
Proof.
  induction items as [|i items' _] using rev_ind.
  - exists [], root. split; reflexivity.
  - rewrite frames_for_snoc.
    eexists (root :: frames_for m (fst root) items'), _. split; [reflexivity|].
    rewrite map_app. cbn [map]. rewrite LSTM_call_snd_snoc. reflexivity.
Qed.

Lemma run_live self l (root : Frame) ops : forall h above,
  stack self = Some l ->
  h !! l = Some (Frames (root :: frames_for (lstm self) (fst root) (rev above))) ->
  pops_guarded self ops h = true ->
  exists outs h',
    run self ops h = (Ok outs, h') /\
    h' !! l = Some (Frames (root :: frames_for (lstm self) (fst root)
                                     (rev (live ops above)))).
Proof.
  induction ops as [|[expression element|] rest IH]; intros h above Hs Hl Hg.
  - exists [], h. split; [reflexivity|exact Hl].
  - destruct (frames_for_top (lstm self) root (rev above)) as (front & top & Hfront & Htop).
    rewrite Hfront in Hl.
    pose proof (push_spec self h front top expression element l Hs Hl) as Hpush.
    cbn [pops_guarded] in Hg. rewrite Hpush in Hg. cbn [snd] in Hg.
    assert (Hlt : (l < length h)%nat) by (apply lookup_lt_is_Some; eauto).
    destruct (IH (<[l := Frames ((front ++ [top]) ++
                     [new_frame (lstm self) expression element (fst top)])]> h)
                 ((expression, element) :: above) Hs) as (outs & h' & Hrun & Hl').
    + rewrite list_lookup_insert_eq by assumption.
      cbn [rev]. rewrite frames_for_snoc, <- Htop, <- Hfront. reflexivity.
    + exact Hg.
    + exists outs, h'. split; [|exact Hl'].
      cbn [run]. unfold bind at 1. rewrite Hpush. exact Hrun.
  - cbn [pops_guarded] in Hg.
    assert (Hf : frames_of h self
                 = Some (root :: frames_for (lstm self) (fst root) (rev above)))
      by (apply frames_of_Some; eauto).
    rewrite (len_spec _ _ _ Hf) in Hg. cbn [fst] in Hg.
    apply andb_true_iff in Hg as [Hd Hg]. apply Z.leb_le in Hd.
    cbn [length] in Hd. rewrite frames_for_length, length_rev in Hd.
    destruct above as [|i below]; [cbn in Hd; lia|].
    cbn [rev] in Hl. rewrite frames_for_snoc in Hl.
    pose proof (pop_spec self h (root :: frames_for (lstm self) (fst root) (rev below))
                  _ l Hs Hl) as Hpop.
    rewrite Hpop in Hg. cbn [snd] in Hg.
    assert (Hlt : (l < length h)%nat) by (apply lookup_lt_is_Some; eauto).
    destruct (IH _ below Hs (list_lookup_insert_eq _ _ _ Hlt) Hg)
      as (outs & h' & Hrun & Hl').
    eexists _, h'. split; [|exact Hl'].
    cbn [run]. unfold bind at 1. rewrite Hpop. unfold bind, ret. rewrite Hrun.
    reflexivity.
Qed.

(** X5: on a stack built by the constructor, after any sequence of pushes
    and guarded pops the frames above the root are exactly those that
    pushing the items still on the stack, alone and in order, would have
    built: what was pushed and popped in between leaves no trace.  So the
    depth is the number of those items and [embedding] is the last output
    of the LSTM run over their vectors from the initial state. *)
Theorem frames_follow_live_items m st e h0 self h (ops : list op) :
  __init__ m (Some st) e h0 = (Ok self, h) ->
  pops_guarded self ops h = true ->
  exists outs h',
    run self ops h = (Ok outs, h') /\
    frames_of h' self = Some (root_frame st :: frames_for m st (rev (live ops []))) /\
    __len__ self h' = (Ok (Z.of_nat (length (live ops []))), h') /\
    embedding self h'
      = (Ok (_lstm_output (snd (LSTM_call m (map fst (rev (live ops []))) st))), h').
Proof.
  rewrite init_spec. intros [= <- <-] Hg.
  set (self := {| empty := e; lstm := m; stack := Some (length h0) |}) in *.
  assert (Hl : (h0 ++ [Frames [root_frame st]]) !! length h0
               = Some (Frames (root_frame st :: frames_for m st (rev [])))).
  { rewrite lookup_app_r by lia. rewrite Nat.sub_diag. reflexivity. }
  destruct (run_live self (length h0) (root_frame st) ops _ [] eq_refl Hl Hg)
    as (outs & h' & Hrun & Hl').
  cbn [lstm self root_frame fst] in Hl'.
  assert (Hf : frames_of h' self
               = Some (root_frame st :: frames_for m st (rev (live ops []))))
    by (apply frames_of_Some; eauto).
  exists outs, h'. repeat split; try assumption.
  - rewrite (len_spec _ _ _ Hf). cbn [length].
    rewrite frames_for_length, length_rev. f_equal. f_equal. lia.
  - destruct (frames_for_top m (root_frame st) (rev (live ops [])))
      as (front & top & Hfront & Htop).
    cbn [root_frame fst] in Hfront, Htop. fold (root_frame st) in Hfront.
    rewrite Hfront in Hf. rewrite (embedding_spec _ _ _ _ Hf), Htop. reflexivity.
Qed.

(** X6: on such a stack [str] lists the root and then the elements still
    on the stack, bottom first, joined by "->". *)
Theorem str_lists_live_elements m st e h0 self h (ops : list op) :
  __init__ m (Some st) e h0 = (Ok self, h) ->
  pops_guarded self ops h = true ->
  exists outs h',
    run self ops h = (Ok outs, h') /\
    __str__ self h'
      = (Ok (String.concat "->"
               (Element.__repr__ (Element.Element (str_node "Root"))
                :: map (fun i => Element.__repr__ (snd i)) (rev (live ops [])))), h').
Proof.
  intros Hinit Hg.
  destruct (frames_follow_live_items m st e h0 self h ops Hinit Hg)
    as (outs & h' & Hrun & Hf & _).
  exists outs, h'. split; [exact Hrun|].
  apply frames_of_Some in Hf as (l & Hs & Hl).
  unfold __str__, bind, load_frames, ret. rewrite Hs, Hl.
  cbn [map root_frame snd]. do 4 f_equal.
  transitivity (map Element.__repr__
                  (map (fun f : Frame => snd (snd f))
                     (frames_for m st (rev (live ops []))))).
  - rewrite map_map. reflexivity.
  - rewrite frames_for_elements, map_map. reflexivity.
Qed.
End StackLSTM_live.

(** * Further properties of ParserState *)

Section ParserState_more.
Context `{Torch} `{PyAny}.
Import ParserState.

Implicit Types (ps : ParserState.t) (h : heap).

Lemma list_append_other (l l0 : loc) (v : pyval) h :
  l0 <> l -> snd (list_append l v h) !! l0 = h !! l0.
Proof.
  intros Hne. unfold list_append, bind, load_items, store.
  destruct (h !! l) as [[fs|vs]|]; try reflexivity.
  cbn. apply list_lookup_insert_ne. congruence.
Qed.

Lemma snd_bind_ret {S A} (m : M S A) (s : S) :
  snd (bind m (fun _ => ret tt) s) = snd (m s).
Proof. unfold bind, ret. destruct (m s) as [[a|e] s']; reflexivity. Qed.

Lemma mutate1_other ps (m : mutation) h (l0 : loc) :
  ~ owns ps l0 -> snd (mutate1 ps m h) !! l0 = h !! l0.
Proof.
  unfold owns. intros Hno.
  destruct m; cbn [mutate1];
    try (rewrite snd_bind_ret; apply run_other; tauto);
    apply list_append_other; intros ->; tauto.
Qed.

Lemma mutate_other ps (ms : list mutation) (l0 : loc) : forall h,
  ~ owns ps l0 -> snd (mutate ps ms h) !! l0 = h !! l0.
Proof.
  induction ms as [|m ms IH]; intros h Hno; [reflexivity|].
  cbn [mutate]. unfold bind.
  pose proof (mutate1_other ps m h l0 Hno) as H1.
  destruct (mutate1 ps m h) as [[[]|e] h1]; cbn [snd] in *.
  - rewrite IH by assumption. exact H1.
  - exact H1.
Qed.

Lemma owns_lt ps h (l : loc) : well_formed h ps -> owns ps l -> (l < length h)%nat.
Proof.
  intros ([fb Hb] & [fk Hk] & [fa Ha] & [vi Hi] & [vc Hc] & [vo Ho]).
  intros [Hl|[Hl|[Hl|[<-|[<-|<-]]]]].
  - exact (frames_of_lt _ _ _ _ Hb Hl).
  - exact (frames_of_lt _ _ _ _ Hk Hl).
  - exact (frames_of_lt _ _ _ _ Ha Hl).
  - exact (items_of_lt _ _ _ Hi).
  - exact (items_of_lt _ _ _ Hc).
  - exact (items_of_lt _ _ _ Ho).
Qed.

(** X8: the copy of a candidate shares no list with anything that was
    there before: whatever pushes, pops and appends are made through the
    copy, on any of its three stacks and three lists, every list object
    that existed when the copy was made is left as it was; and whatever is
    made through the original, the six lists of the copy are left as they
    were. *)
Theorem copy_shares_no_list ps h :
  well_formed h ps ->
  exists other h1,
    copy ps h = (Ok other, h1) /\
    length h1 = (length h + 6)%nat /\
    (forall (ms : list mutation) (l : loc),
       (l < length h)%nat -> snd (mutate other ms h1) !! l = h !! l) /\
    (forall (ms : list mutation) (l : loc),
       (length h <= l)%nat -> snd (mutate ps ms h1) !! l = h1 !! l).
Proof.
  intros Hwf.
  pose proof Hwf as ([fb Hb] & [fk Hk] & [fa Ha] & [vi Hi] & [vc Hc] & [vo Ho]).
  eexists _, _. split; [apply (ParserState_copy_spec ps h fb fk fa vi vc vo); assumption|].
  split; [rewrite length_app; reflexivity|]. split.
  - intros ms l Hl. rewrite mutate_other.
    + apply lookup_app_l. exact Hl.
    + unfold owns. cbn. intros [E|[E|[E|[E|[E|E]]]]];
        first [injection E as E; lia | lia].
  - intros ms l Hl. apply mutate_other.
    intros Hown. pose proof (owns_lt ps h l Hwf Hown). lia.
Qed.

Lemma finished_by_frames ps h (fk fb : list Frame) :
  StackLSTM.frames_of h (stack_stackrnn ps) = Some fk ->
  StackLSTM.frames_of h (buffer_stackrnn ps) = Some fb ->
  finished ps h =
    (let ds := Z.of_nat (length fk) - 1 in
     let db := Z.of_nat (length fb) - 1 in
     if ds <? 0 then Raise ValueError
     else if ds =? 1
          then if db <? 0 then Raise ValueError else Ok (db =? 0)
          else Ok false, h).
Proof.
  intros Hk Hb. unfold finished, bind. cbn zeta.
  rewrite (builtin_len_spec _ _ _ Hk).
  destruct (Z.of_nat (length fk) - 1 <? 0); [reflexivity|].
  destruct (Z.of_nat (length fk) - 1 =? 1); [|reflexivity].
  rewrite (builtin_len_spec _ _ _ Hb).
  destruct (Z.of_nat (length fb) - 1 <? 0); reflexivity.
Qed.

(** [finished] raises ValueError on a candidate whose stack lost its root
    frame. *)
Lemma finished_raises_without_root ps h :
  well_formed h ps ->
  StackLSTM.frames_of h (stack_stackrnn ps) = Some [] ->
  finished ps h = (Raise ValueError, h).
Proof.
  intros ([fb Hb] & _) Hk. rewrite (finished_by_frames _ _ _ _ Hk Hb). reflexivity.
Qed.

(** X9: [finished] has the same outcome on a copy as on its original, be it
    an answer or the ValueError of [len] on a stack without its root, and
    making the copy does not change the outcome on the original. *)
Theorem copy_preserves_finished ps h :
  well_formed h ps ->
  exists other h1 (r : result bool),
    copy ps h = (Ok other, h1) /\
    finished ps h = (r, h) /\
    finished other h1 = (r, h1) /\
    finished ps h1 = (r, h1).
Proof.
  intros ([fb Hb] & [fk Hk] & [fa Ha] & [vi Hi] & [vc Hc] & [vo Ho]).
  eexists _, _, _. split; [apply (ParserState_copy_spec ps h fb fk fa vi vc vo); assumption|].
  split; [apply (finished_by_frames ps h fk fb); assumption|]. split.
  - apply finished_by_frames; unfold StackLSTM.frames_of; cbn;
      rewrite lookup_app_r by lia.
    + replace (length h + 1 - length h)%nat with 1%nat by lia. reflexivity.
    + rewrite Nat.sub_diag. reflexivity.
  - apply finished_by_frames; apply frames_of_app; assumption.
Qed.

(** X10: when [init_lstm] only computes a state, the constructor returns a
    candidate whose three stacks hold their root frame alone, in three new
    list objects, whose three lists are new and empty, with no open
    nonterminal, score 0 and no unsupported action; it is well formed and
    it is not finished, its stack being at depth 0. *)
Theorem new_candidate_is_not_finished (parser : Parser) h :
  (forall h', exists s, init_lstm parser h' = (Ok s, h')) ->
  exists ps s0 s1 s2,
    let h1 := h ++ [Frames [StackLSTM.root_frame s0]; Frames [StackLSTM.root_frame s1];
                    Frames [StackLSTM.root_frame s2]; Items []; Items []; Items []] in
    __init__ parser h = (Ok ps, h1) /\
    well_formed h1 ps /\
    StackLSTM.__len__ (buffer_stackrnn ps) h1 = (Ok 0, h1) /\
    StackLSTM.__len__ (stack_stackrnn ps) h1 = (Ok 0, h1) /\
    StackLSTM.__len__ (action_stackrnn ps) h1 = (Ok 0, h1) /\
    items_of h1 (predicted_actions_idx ps) = Some [] /\
    items_of h1 (action_scores ps) = Some [] /\
    items_of h1 (is_open_NT ps) = Some [] /\
    num_open_NT ps = 0 /\ found_unsupported ps = false /\ neg_prob ps = 0%float /\
    finished ps h1 = (Ok false, h1).
Proof.
  intros Hpure.
  destruct (Hpure h) as [s0 E0].
  destruct (Hpure (h ++ [Frames [StackLSTM.root_frame s0]])) as [s1 E1].
  destruct (Hpure ((h ++ [Frames [StackLSTM.root_frame s0]])
                     ++ [Frames [StackLSTM.root_frame s1]])) as [s2 E2].
  eexists _, s0, s1, s2. cbn zeta.
  assert (Hinit : __init__ parser h =
            (Ok {| buffer_stackrnn :=
                     {| StackLSTM.empty := pempty_buffer_emb parser;
                        StackLSTM.lstm := buff_rnn parser;
                        StackLSTM.stack := Some (length h) |};
                   stack_stackrnn :=
                     {| StackLSTM.empty := empty_stack_emb parser;
                        StackLSTM.lstm := stack_rnn parser;
                        StackLSTM.stack := Some (length h + 1)%nat |};
                   action_stackrnn :=
                     {| StackLSTM.empty := empty_action_emb parser;
                        StackLSTM.lstm := action_rnn parser;
                        StackLSTM.stack := Some (length h + 2)%nat |};
                   predicted_actions_idx := (length h + 3)%nat;
                   action_scores := (length h + 4)%nat;
                   num_open_NT := 0;
                   is_open_NT := (length h + 5)%nat;
                   found_unsupported := false;
                   neg_prob := 0%float |},
             h ++ [Frames [StackLSTM.root_frame s0]; Frames [StackLSTM.root_frame s1];
                   Frames [StackLSTM.root_frame s2]; Items []; Items []; Items []])).
  { unfold __init__.
    unfold bind at 1. rewrite E0.
    unfold bind at 1. rewrite init_spec.
    unfold bind at 1. rewrite E1.
    unfold bind at 1. rewrite init_spec.
    unfold bind at 1. rewrite E2.
    unfold bind at 1. rewrite init_spec.
    unfold bind, alloc, ret. rewrite !length_app. cbn [length].
    rewrite <- !app_assoc. cbn [app].
    rewrite <- !Nat.add_assoc. cbn [Nat.add]. reflexivity. }
  rewrite Hinit.
  set (h1 := h ++ _).
  assert (Hb : StackLSTM.frames_of h1
                 {| StackLSTM.empty := pempty_buffer_emb parser;
                    StackLSTM.lstm := buff_rnn parser;
                    StackLSTM.stack := Some (length h) |}
               = Some [StackLSTM.root_frame s0]).
  { unfold StackLSTM.frames_of, h1. cbn. rewrite lookup_app_r by lia.
    rewrite Nat.sub_diag. reflexivity. }
  assert (Hk : StackLSTM.frames_of h1
                 {| StackLSTM.empty := empty_stack_emb parser;
                    StackLSTM.lstm := stack_rnn parser;
                    StackLSTM.stack := Some (length h + 1)%nat |}
               = Some [StackLSTM.root_frame s1]).
  { unfold StackLSTM.frames_of, h1. cbn. rewrite lookup_app_r by lia.
    replace (length h + 1 - length h)%nat with 1%nat by lia. reflexivity. }
  assert (Ha : StackLSTM.frames_of h1
                 {| StackLSTM.empty := empty_action_emb parser;
                    StackLSTM.lstm := action_rnn parser;
                    StackLSTM.stack := Some (length h + 2)%nat |}
               = Some [StackLSTM.root_frame s2]).
  { unfold StackLSTM.frames_of, h1. cbn. rewrite lookup_app_r by lia.
    replace (length h + 2 - length h)%nat with 2%nat by lia. reflexivity. }
  assert (Hi : items_of h1 (length h + 3)%nat = Some []).
  { unfold items_of, h1. rewrite lookup_app_r by lia.
    replace (length h + 3 - length h)%nat with 3%nat by lia. reflexivity. }
  assert (Hc : items_of h1 (length h + 4)%nat = Some []).
  { unfold items_of, h1. rewrite lookup_app_r by lia.
    replace (length h + 4 - length h)%nat with 4%nat by lia. reflexivity. }
  assert (Ho : items_of h1 (length h + 5)%nat = Some []).
  { unfold items_of, h1. rewrite lookup_app_r by lia.
    replace (length h + 5 - length h)%nat with 5%nat by lia. reflexivity. }
  split; [reflexivity|].
  cbn [buffer_stackrnn stack_stackrnn action_stackrnn predicted_actions_idx
       action_scores is_open_NT num_open_NT found_unsupported neg_prob].
  split.
  { unfold well_formed.
    cbn [buffer_stackrnn stack_stackrnn action_stackrnn predicted_actions_idx
         action_scores is_open_NT].
    rewrite Hb, Hk, Ha, Hi, Hc, Ho. repeat split; eauto. }
  rewrite (len_spec _ _ _ Hb), (len_spec _ _ _ Hk), (len_spec _ _ _ Ha).
  repeat split; try assumption.
  match goal with
  | |- finished ?p _ = _ => exact (finished_by_frames p h1 _ _ Hk Hb)
  end.
Qed.
End ParserState_more.

(** * Further properties of the composition functions *)

Section Composition_more.
Context `{CudaUtils}.
Import CompositionalNN.

(** X11: the bidirectional variant makes its four draws before it reads its
    input: whatever the list is, and whether the call returns or raises, the
    generator is left where the four draws leave it.  On the empty list the
    call raises IndexError, at [x[-1]].  On a list with a last entry, of rows
    of the shape the docstring gives (a tensor here carries no shape, and what
    torch raises on rows of another shape is not part of this), it returns a
    vector. *)
Theorem forward_draws_before_reading (self : CompositionalNN.t) (g : Rng) :
  (forall x : list Tensor, snd (forward self x g) = snd (initial_states self g)) /\
  forward self [] g = (Raise IndexError, snd (initial_states self g)) /\
  forall (children : list Tensor) (nt : Tensor),
    exists v, forward self (children ++ [nt]) g = (Ok v, snd (initial_states self g)).
Proof.
  destruct (initial_states_ok self g) as (f & r & g' & Hi). split; [|split].
  - intros x. rewrite forward_from_initial_states, Hi. reflexivity.
  - rewrite forward_from_initial_states, Hi. reflexivity.
  - intros children nt. eexists.
    rewrite (forward_first_step _ children nt _ _ _ _ Hi), Hi. reflexivity.
Qed.
End Composition_more.

(** * The further properties at concrete inputs *)

Section More_examples.
Import Sample.

(** X1 at the new stack. *)
Lemma push_then_pop_restores_witness :
  exists h1,
    StackLSTM.push fresh_stack [2] (element "a") fresh_heap = (Ok tt, h1) /\
    StackLSTM.pop fresh_stack h1 = (Ok ([3], element "a"), fresh_heap).
Proof.
  apply (push_then_pop_restores fresh_stack fresh_heap []
           (StackLSTM.root_frame initial_state) [2] (element "a")).
  reflexivity.
Defined.

(** X2 at the new stack and two items. *)
Lemma push_all_then_pop_all_witness :
  exists outs,
    StackLSTM.run fresh_stack (push_all two_items ++ repeat StackLSTM.Pop 2) fresh_heap
      = (Ok outs, fresh_heap) /\
    map snd outs = [element "b"; element "a"].
Proof.
  apply (push_all_then_pop_all fresh_stack two_items fresh_heap []
           (StackLSTM.root_frame initial_state)).
  reflexivity.
Defined.

(** X3 at the new stack. *)
Lemma push_shifts_offsets_witness :
  exists h1,
    StackLSTM.push fresh_stack [2] (element "a") fresh_heap = (Ok tt, h1) /\
    StackLSTM.__len__ fresh_stack h1 = (Ok 1, h1) /\
    StackLSTM.__len__ fresh_stack fresh_heap = (Ok 0, fresh_heap) /\
    StackLSTM.element_from_top fresh_stack 0 h1 = (Ok (element "a"), h1) /\
    StackLSTM.embedding fresh_stack h1 = (Ok [3], h1) /\
    forall i, 0 <= i ->
      fst (StackLSTM.element_from_top fresh_stack (i + 1) h1)
        = fst (StackLSTM.element_from_top fresh_stack i fresh_heap).
Proof.
  apply (push_shifts_offsets fresh_stack fresh_heap []
           (StackLSTM.root_frame initial_state) [2] (element "a")).
  reflexivity.
Defined.

(** X4 at the stack of the candidate, which holds three frames, and the
    index -1. *)
Lemma element_from_top_range_witness :
  exists fs,
  StackLSTM.frames_of busy_heap (ParserState.stack_stackrnn candidate) = Some fs /\
  length fs = 3%nat /\
  ((exists el, StackLSTM.element_from_top (ParserState.stack_stackrnn candidate) (-1)
                 busy_heap = (Ok el, busy_heap)) <->
     - Z.of_nat (length fs) <= -1 < Z.of_nat (length fs)) /\
  (-1 < - Z.of_nat (length fs) \/ Z.of_nat (length fs) <= -1 ->
     StackLSTM.element_from_top (ParserState.stack_stackrnn candidate) (-1) busy_heap
       = (Raise IndexError, busy_heap)) /\
  (- Z.of_nat (length fs) <= -1 < 0 ->
     StackLSTM.element_from_top (ParserState.stack_stackrnn candidate) (-1) busy_heap
       = StackLSTM.element_from_top (ParserState.stack_stackrnn candidate)
           (Z.of_nat (length fs) + -1) busy_heap).
Proof.
  eexists. split; [reflexivity|]. split; [reflexivity|].
  eapply (element_from_top_range (ParserState.stack_stackrnn candidate) busy_heap _ (-1)).
  reflexivity.
Defined.

Example element_from_top_examples :
  let s := ParserState.stack_stackrnn candidate in
  fst (StackLSTM.element_from_top s 0 busy_heap) = Ok (element "tok") /\
  fst (StackLSTM.element_from_top s 2 busy_heap) = Ok (element "Root") /\
  fst (StackLSTM.element_from_top s 3 busy_heap) = Raise IndexError /\
  fst (StackLSTM.element_from_top s (-1) busy_heap) = Ok (element "Root") /\
  fst (StackLSTM.element_from_top s (-3) busy_heap) = Ok (element "tok") /\
  fst (StackLSTM.element_from_top s (-4) busy_heap) = Raise IndexError.
Proof. repeat split. Qed.

(** X5 at the new stack: a was pushed, b pushed and popped, c pushed. *)
Lemma frames_follow_live_items_witness :
  exists outs h',
    StackLSTM.run fresh_stack some_calls fresh_heap = (Ok outs, h') /\
    StackLSTM.frames_of h' fresh_stack
      = Some (StackLSTM.root_frame initial_state
              :: frames_for rnn initial_state (rev (live some_calls []))) /\
    StackLSTM.__len__ fresh_stack h' = (Ok (Z.of_nat (length (live some_calls []))), h') /\
    StackLSTM.embedding fresh_stack h'
      = (Ok (StackLSTM._lstm_output
               (snd (LSTM_call rnn (map fst (rev (live some_calls []))) initial_state))),
         h').
Proof.
  apply (frames_follow_live_items rnn initial_state [7] [] fresh_stack fresh_heap
           some_calls); reflexivity.
Defined.

Example live_items_example :
  live some_calls []
    = [([4], element "c"); ([2], element "a")] /\
  fst (StackLSTM.embedding fresh_stack
         (snd (StackLSTM.run fresh_stack some_calls fresh_heap))) = Ok [7] /\
  fst (LSTM_call rnn [[2]; [4]] initial_state) = [[3]; [7]].
Proof. repeat split. Qed.

(** X6 at the same calls. *)
Lemma str_lists_live_elements_witness :
  exists outs h',
    StackLSTM.run fresh_stack some_calls fresh_heap = (Ok outs, h') /\
    StackLSTM.__str__ fresh_stack h' = (Ok "Root->a->c"%string, h').
Proof.
  apply (str_lists_live_elements rnn initial_state [7] [] fresh_stack fresh_heap
           some_calls); reflexivity.
Defined.

(** X7 at the stack whose root was popped. *)
Lemma no_frame_is_final_witness :
  StackLSTM.run fresh_stack [token; StackLSTM.Pop] spent_heap
    = (Raise IndexError, spent_heap) /\
  StackLSTM.__len__ fresh_stack spent_heap = (Ok (-1), spent_heap) /\
  StackLSTM.len fresh_stack spent_heap = (Raise ValueError, spent_heap) /\
  StackLSTM.embedding fresh_stack spent_heap = (Ok [7], spent_heap).
Proof.
  apply (no_frame_is_final fresh_stack spent_heap token [StackLSTM.Pop]).
  reflexivity.
Defined.

(** X8 at the candidate. *)
Lemma copy_shares_no_list_witness :
  exists other h1,
    ParserState.copy candidate busy_heap = (Ok other, h1) /\
    length h1 = (length busy_heap + 6)%nat /\
    (forall (ms : list mutation) (l : loc),
       (l < length busy_heap)%nat -> snd (mutate other ms h1) !! l = busy_heap !! l) /\
    (forall (ms : list mutation) (l : loc),
       (length busy_heap <= l)%nat -> snd (mutate candidate ms h1) !! l = h1 !! l).
Proof.
  apply (copy_shares_no_list candidate busy_heap). exact busy_well_formed.
Defined.

Example mutations_reach_the_copy_only :
  let other := {| ParserState.buffer_stackrnn :=
                    {| StackLSTM.empty := [7]; StackLSTM.lstm := rnn;
                       StackLSTM.stack := Some 6%nat |};
                  ParserState.stack_stackrnn :=
                    {| StackLSTM.empty := [8]; StackLSTM.lstm := rnn;
                       StackLSTM.stack := Some 7%nat |};
                  ParserState.action_stackrnn :=
                    {| StackLSTM.empty := [9]; StackLSTM.lstm := rnn;
                       StackLSTM.stack := Some 8%nat |};
                  ParserState.predicted_actions_idx := 9%nat;
                  ParserState.action_scores := 10%nat;
                  ParserState.num_open_NT := 0;
                  ParserState.is_open_NT := 11%nat;
                  ParserState.found_unsupported := false;
                  ParserState.neg_prob := 0%float |} in
  let h1 := snd (ParserState.copy candidate busy_heap) in
  let h2 := snd (mutate other some_mutations h1) in
  fst (ParserState.copy candidate busy_heap) = Ok other /\
  fst (mutate other some_mutations h1) = Ok tt /\
  firstn 6 h2 = busy_heap /\
  ParserState.items_of h2 9%nat = Some [PyInt 4; PyInt 2; PyInt 7] /\
  fst (StackLSTM.__len__ (ParserState.stack_stackrnn other) h2) = Ok 3 /\
  fst (StackLSTM.__len__ (ParserState.stack_stackrnn candidate) h2) = Ok 2.
Proof. repeat split. Qed.

(** X9 at the candidate. *)
Lemma copy_preserves_finished_witness :
  exists other h1 (r : result bool),
    ParserState.copy candidate busy_heap = (Ok other, h1) /\
    ParserState.finished candidate busy_heap = (r, busy_heap) /\
    ParserState.finished other h1 = (r, h1) /\
    ParserState.finished candidate h1 = (r, h1).
Proof.
  apply (copy_preserves_finished candidate busy_heap). exact busy_well_formed.
Defined.

(** X10 at the parser whose [init_lstm] returns the same state each time. *)
Lemma new_candidate_is_not_finished_witness :
  exists ps s0 s1 s2,
    let h1 := [Frames [StackLSTM.root_frame s0]; Frames [StackLSTM.root_frame s1];
               Frames [StackLSTM.root_frame s2]; Items []; Items []; Items []] in
    ParserState.__init__ parser [] = (Ok ps, h1) /\
    ParserState.well_formed h1 ps /\
    StackLSTM.__len__ (ParserState.buffer_stackrnn ps) h1 = (Ok 0, h1) /\
    StackLSTM.__len__ (ParserState.stack_stackrnn ps) h1 = (Ok 0, h1) /\
    StackLSTM.__len__ (ParserState.action_stackrnn ps) h1 = (Ok 0, h1) /\
    ParserState.items_of h1 (ParserState.predicted_actions_idx ps) = Some [] /\
    ParserState.items_of h1 (ParserState.action_scores ps) = Some [] /\
    ParserState.items_of h1 (ParserState.is_open_NT ps) = Some [] /\
    ParserState.num_open_NT ps = 0 /\ ParserState.found_unsupported ps = false /\
    ParserState.neg_prob ps = 0%float /\
    ParserState.finished ps h1 = (Ok false, h1).
Proof.
  apply (new_candidate_is_not_finished parser []).
  intros h'. exists initial_state. reflexivity.
Defined.

Example forward_on_empty_list :
  CompositionalNN.forward net [] 0 = (Raise IndexError, 4) /\
  CompositionalSummationNN.forward sum_net [] = Raise RuntimeError.
Proof. repeat split. Qed.
End More_examples.
